(** * Flight integrator of the [Plane] component

    A shallow embedding of the physics block of [Plane]'s per-frame callback
    ([useFrame], src/unnamed/part_001) together with the constants of
    src/unnamed/part_000 and the record types of src/unnamed/part_002.

    Numbers.  The source computes with JavaScript numbers.  They are
    embedded as real numbers: every operation is the exact one, so the
    rounding of a double, NaN and the infinities are outside this model, and
    "within floating-point tolerance" reads as equality.  [Math.sqrt],
    [Math.sin] and [Math.cos] are the real functions.  [engineCount] and the
    index of the throttle loop are natural numbers.  Division is that of the
    reals, total; the one divisor the inputs can make zero is
    [MAX_SPEED * maxSpeedMult] in the lift factor, and every aircraft of the
    fleet has a positive [maxSpeedMult].  Where a property is about the
    rounding itself, the physics block is transcribed a second time in
    binary64 (module [Double]) and run there.

    The [Vector3] and [Quaternion] methods are those of three.js, the
    library the component imports them from. *)

From Stdlib Require Import Reals Lra Psatz List Bool Arith.
From Stdlib Require String.
From Stdlib Require PrimFloat.
Import ListNotations.

Local Open Scope R_scope.

(** ** Constants (src/unnamed/part_000) *)

Definition MAX_THRUST : R := 0.5.
Definition GRAVITY : R := 0.08.
Definition LIFT_COEFFICIENT : R := 0.002.
Definition DRAG_COEFFICIENT : R := 0.0005.
Definition ROTATION_SPEED : R := 0.02.
Definition MIN_TAKEOFF_SPEED : R := 0.8.
Definition MAX_SPEED : R := 4.0.
Definition STALL_SPEED : R := 0.5.

(** ** three.js value types *)

Record Vector3 : Type := mkVector3 { vx : R; vy : R; vz : R }.
Record Quaternion : Type := mkQuaternion { qx : R; qy : R; qz : R; qw : R }.

(** [Euler] angles as the triple [toArray] returns. *)
Definition Euler : Type := (R * R * R)%type.

Module Quat.

(** [new Quaternion()] *)
Definition identity : Quaternion := mkQuaternion 0 0 0 1.

(** [Quaternion.setFromAxisAngle(axis, angle)]; the axis is taken as it
    comes, three.js assumes it normalised. *)
Definition setFromAxisAngle (axis : Vector3) (angle : R) : Quaternion :=
  let halfAngle := angle / 2 in
  let s := sin halfAngle in
  mkQuaternion (vx axis * s) (vy axis * s) (vz axis * s) (cos halfAngle).

(** [a.multiply(b)], that is [multiplyQuaternions(a, b)]. *)
Definition multiply (a b : Quaternion) : Quaternion :=
  mkQuaternion
    (qx a * qw b + qw a * qx b + qy a * qz b - qz a * qy b)
    (qy a * qw b + qw a * qy b + qz a * qx b - qx a * qz b)
    (qz a * qw b + qw a * qz b + qx a * qy b - qy a * qx b)
    (qw a * qw b - qx a * qx b - qy a * qy b - qz a * qz b).

Definition lengthSq (q : Quaternion) : R :=
  qx q * qx q + qy q * qy q + qz q * qz q + qw q * qw q.

(** [Quaternion.length()] *)
Definition length (q : Quaternion) : R := sqrt (lengthSq q).

End Quat.

Module Vec.

Definition zero : Vector3 := mkVector3 0 0 0.

Definition add (a b : Vector3) : Vector3 :=
  mkVector3 (vx a + vx b) (vy a + vy b) (vz a + vz b).

Definition multiplyScalar (a : Vector3) (s : R) : Vector3 :=
  mkVector3 (vx a * s) (vy a * s) (vz a * s).

(** [divideScalar(s)] is [multiplyScalar(1 / s)]. *)
Definition divideScalar (a : Vector3) (s : R) : Vector3 :=
  multiplyScalar a (1 / s).

Definition dot (a b : Vector3) : R :=
  vx a * vx b + vy a * vy b + vz a * vz b.

Definition lengthSq (a : Vector3) : R := dot a a.

Definition length (a : Vector3) : R := sqrt (lengthSq a).

(** [normalize()] is [divideScalar(this.length() || 1)]: a vector of
    length zero is divided by one. *)
Definition normalize (a : Vector3) : Vector3 :=
  divideScalar a (if Req_dec_T (length a) 0 then 1 else length a).

(** [lerp(v, alpha)]: each component moves by [(v - this) * alpha]. *)
Definition lerp (a v : Vector3) (alpha : R) : Vector3 :=
  mkVector3 (vx a + (vx v - vx a) * alpha)
            (vy a + (vy v - vy a) * alpha)
            (vz a + (vz v - vz a) * alpha).

(** [applyQuaternion(q)], in the form of current three.js:
    [v + qw * t + q x t] with [t = 2 * (q x v)], the rotation by [q] when [q]
    is a unit quaternion. *)
Definition applyQuaternion (v : Vector3) (q : Quaternion) : Vector3 :=
  let tx := 2 * (qy q * vz v - qz q * vy v) in
  let ty := 2 * (qz q * vx v - qx q * vz v) in
  let tz := 2 * (qx q * vy v - qy q * vx v) in
  mkVector3 (vx v + qw q * tx + qy q * tz - qz q * ty)
            (vy v + qw q * ty + qz q * tx - qx q * tz)
            (vz v + qw q * tz + qx q * ty - qy q * tx).

(** [this.y = y], the other components kept. *)
Definition setY (a : Vector3) (y : R) : Vector3 := mkVector3 (vx a) y (vz a).

End Vec.

(** ** Records of src/unnamed/part_002 *)

(** [AircraftConfig], the fields the physics reads. *)
Record AircraftConfig : Type := mkAircraftConfig {
  thrustMult : R;
  liftMult : R;
  dragMult : R;
  turnSpeedMult : R;
  maxSpeedMult : R;
  engineCount : nat
}.

Record ControlState : Type := mkControlState {
  pitch : R;
  roll : R;
  yaw : R;
  throttles : list R;
  brake : bool;
  flaps : R;
  gear : bool
}.

Record FlightData : Type := mkFlightData {
  fd_position : R * R * R;
  fd_rotation : Euler;
  fd_velocity : R;
  fd_altitude : R;
  fd_throttles : list R;
  fd_fuel : R;
  fd_isGearDown : bool;
  fd_flapsValue : R;
  fd_brake : bool;
  fd_pitchInput : R;
  fd_rollInput : R;
  fd_yawInput : R
}.

(** ** The physics state: the four [useRef] cells of [Plane] *)

Record Refs : Type := mkRefs {
  velocity : Vector3;
  speed : R;
  position : Vector3;
  quaternion : Quaternion
}.

(** The [useEffect] that runs on mount and on aircraft change; [speed] is
    left as [useRef(0)] made it. *)
Definition initialRefs : Refs :=
  mkRefs (mkVector3 0 0 0) 0 (mkVector3 0 0.6 0) Quat.identity.

(** ** Thrust and differential yaw: the [throttles.forEach] loop *)

(** [side = (i / (engineCount - 1)) * 2 - 1] *)
Definition side (cfg : AircraftConfig) (i : nat) : R :=
  (INR i / (INR (engineCount cfg) - 1)) * 2 - 1.

(** One call of the loop body at index [i] on the pair
    [(totalThrustPercent, yawMoment)]. *)
Definition throttleBody (cfg : AircraftConfig) (i : nat) (val : R)
    (acc : R * R) : R * R :=
  if (engineCount cfg <=? i)%nat then acc
  else
    let totalThrustPercent := fst acc + val in
    let yawMoment :=
      if (1 <? engineCount cfg)%nat then snd acc + side cfg i * val
      else snd acc in
    (totalThrustPercent, yawMoment).

Fixpoint throttleLoop (cfg : AircraftConfig) (i : nat) (vals : list R)
    (acc : R * R) : R * R :=
  match vals with
  | [] => acc
  | val :: rest => throttleLoop cfg (S i) rest (throttleBody cfg i val acc)
  end.

Definition totalThrustPercent (cfg : AircraftConfig) (ctl : ControlState) : R :=
  fst (throttleLoop cfg 0 (throttles ctl) (0, 0)).

Definition yawMoment (cfg : AircraftConfig) (ctl : ControlState) : R :=
  snd (throttleLoop cfg 0 (throttles ctl) (0, 0)).

Definition avgThrottle (cfg : AircraftConfig) (ctl : ControlState) : R :=
  totalThrustPercent cfg ctl / Rmax 1 (INR (engineCount cfg)).

(** ** The frame callback, step by step

    Each definition below is one statement group of [useFrame]; [physics]
    chains them in the order of the source.  The early return on an
    unmounted group, the gear animation, the control surfaces and the camera
    write nothing the physics reads and are left out. *)

Definition Rltb (a b : R) : bool := if Rlt_dec a b then true else false.
Definition Rleb (a b : R) : bool := if Rle_dec a b then true else false.

Definition setVelocity (r : Refs) (v : Vector3) : Refs :=
  mkRefs v (speed r) (position r) (quaternion r).
Definition setSpeed (r : Refs) (s : R) : Refs :=
  mkRefs (velocity r) s (position r) (quaternion r).
Definition setPosition (r : Refs) (p : Vector3) : Refs :=
  mkRefs (velocity r) (speed r) p (quaternion r).
Definition setQuaternion (r : Refs) (q : Quaternion) : Refs :=
  mkRefs (velocity r) (speed r) (position r) q.

(** The body axes in world coordinates. *)
Definition forwardOf (r : Refs) : Vector3 :=
  Vec.applyQuaternion (mkVector3 0 0 (-1)) (quaternion r).
Definition upOf (r : Refs) : Vector3 :=
  Vec.applyQuaternion (mkVector3 0 1 0) (quaternion r).
Definition rightOf (r : Refs) : Vector3 :=
  Vec.applyQuaternion (mkVector3 1 0 0) (quaternion r).

(** [speed.current = velocity.current.length()] *)
Definition readSpeed (r : Refs) : Refs := setSpeed r (Vec.length (velocity r)).

(** [thrustVal] as first computed. *)
Definition fullThrustVal (cfg : AircraftConfig) (ctl : ControlState) : R :=
  (avgThrottle cfg ctl / 100) * MAX_THRUST * thrustMult cfg.

Definition braking (ctl : ControlState) (r : Refs) : bool :=
  brake ctl && Rltb (vy (position r)) 1.0.

(** [if (controls.brake && position.current.y < 1.0)]: the branch assigns
    the local [thrustVal] and the [speed] cell. *)
Definition brakeBranch (ctl : ControlState) (thrustVal : R) (r : Refs)
    : R * Refs :=
  if braking ctl r then (0, setSpeed r (speed r * 0.95)) else (thrustVal, r).

Definition gravityVector (delta : R) : Vector3 :=
  mkVector3 0 (- GRAVITY * delta * 60) 0.

Definition liftFactor (cfg : AircraftConfig) (ctl : ControlState) (sp : R) : R :=
  (sp / (MAX_SPEED * maxSpeedMult cfg)) * (1 + flaps ctl * 0.3).

Definition effectiveLift (cfg : AircraftConfig) (ctl : ControlState) (sp : R)
    : R :=
  Rmax 0 (liftFactor cfg ctl sp * LIFT_COEFFICIENT * sp * 1000 * liftMult cfg).

Definition liftVector (cfg : AircraftConfig) (ctl : ControlState)
    (up : Vector3) (sp delta : R) : Vector3 :=
  Vec.multiplyScalar up (effectiveLift cfg ctl sp * delta).

Definition dragVal (cfg : AircraftConfig) (ctl : ControlState) (sp : R) : R :=
  (sp * sp) * DRAG_COEFFICIENT * dragMult cfg
  + (if gear ctl then 0.001 else 0) + (flaps ctl * 0.002).

(** [velocity.current.clone().normalize().multiplyScalar(-dragVal)] *)
Definition dragVector (cfg : AircraftConfig) (ctl : ControlState)
    (v : Vector3) (sp : R) : Vector3 :=
  Vec.multiplyScalar (Vec.normalize v) (- dragVal cfg ctl sp).

Definition isOnGround (r : Refs) : bool := Rleb (vy (position r)) 0.6.

(** The four [velocity.current.add] calls. *)
Definition integrateVelocity (v thrustVector gravity lift drag : Vector3)
    (delta : R) : Vector3 :=
  Vec.add
    (Vec.add
       (Vec.add (Vec.add v (Vec.multiplyScalar thrustVector delta)) gravity)
       lift)
    drag.

(** The body of [if (isOnGround)]. *)
Definition groundClamp (r : Refs) : Refs :=
  let v1 :=
    if Rlt_dec (vy (velocity r)) 0 then Vec.setY (velocity r) 0
    else velocity r in
  let p1 := Vec.setY (position r) 0.6 in
  mkRefs (Vec.multiplyScalar v1 0.995) (speed r) p1 (quaternion r).

Definition controlAuthority (cfg : AircraftConfig) (sp : R) : R :=
  Rmin (sp / MIN_TAKEOFF_SPEED) 1.5 * ROTATION_SPEED * turnSpeedMult cfg.

Definition pitchAmt (cfg : AircraftConfig) (ctl : ControlState) (sp delta : R)
    : R :=
  pitch ctl * controlAuthority cfg sp * delta * 60.

Definition rollAmt (cfg : AircraftConfig) (ctl : ControlState) (sp delta : R)
    : R :=
  - roll ctl * controlAuthority cfg sp * 1.5 * delta * 60.

Definition diffThrustFactor : R := 0.0005.

Definition totalYawInput (cfg : AircraftConfig) (ctl : ControlState) : R :=
  - yaw ctl + (yawMoment cfg ctl * diffThrustFactor).

Definition yawAmt (cfg : AircraftConfig) (ctl : ControlState) (onGround : bool)
    (sp delta : R) : R :=
  totalYawInput cfg ctl
  * (if onGround then 0.02 else controlAuthority cfg sp * 0.5) * delta * 60.

(** The three [quaternion.current.multiply] calls: pitch, yaw, roll. *)
Definition rotate (q pitchQuat yawQuat rollQuat : Quaternion) : Quaternion :=
  Quat.multiply (Quat.multiply (Quat.multiply q pitchQuat) yawQuat) rollQuat.

(** [if (!isOnGround && speed.current > 0.1)] *)
Definition stability (onGround : bool) (forward : Vector3) (delta : R)
    (r : Refs) : Refs :=
  if negb onGround && Rltb 0.1 (speed r) then
    let targetVel := Vec.multiplyScalar forward (speed r) in
    setVelocity r (Vec.lerp (velocity r) targetVel (delta * 0.5))
  else r.

(** [position.current.add(velocity.current.clone().multiplyScalar(delta * 60))] *)
Definition integratePosition (delta : R) (r : Refs) : Refs :=
  setPosition r
    (Vec.add (position r) (Vec.multiplyScalar (velocity r) (delta * 60))).

(** The physics block of [useFrame]: the cells after one frame of [delta]
    seconds.  [forward], [up] and [right] are computed once, from the
    orientation the frame starts with. *)
Definition physics (cfg : AircraftConfig) (ctl : ControlState) (delta : R)
    (r0 : Refs) : Refs :=
  let forward := forwardOf r0 in
  let up := upOf r0 in
  let right := rightOf r0 in
  let r1 := readSpeed r0 in
  let br := brakeBranch ctl (fullThrustVal cfg ctl) r1 in
  let thrustVal := fst br in
  let r2 := snd br in
  let thrustVector := Vec.multiplyScalar forward thrustVal in
  let gravity := gravityVector delta in
  let lift := liftVector cfg ctl up (speed r2) delta in
  let drag := dragVector cfg ctl (velocity r2) (speed r2) in
  let onGround := isOnGround r2 in
  let r3 :=
    setVelocity r2
      (integrateVelocity (velocity r2) thrustVector gravity lift drag delta) in
  let r4 := if onGround then groundClamp r3 else r3 in
  let pitchQuat :=
    Quat.setFromAxisAngle right (pitchAmt cfg ctl (speed r4) delta) in
  let rollQuat :=
    Quat.setFromAxisAngle forward (rollAmt cfg ctl (speed r4) delta) in
  let yawQuat :=
    Quat.setFromAxisAngle up (yawAmt cfg ctl onGround (speed r4) delta) in
  let r5 := setQuaternion r4 (rotate (quaternion r4) pitchQuat yawQuat rollQuat) in
  let r6 := stability onGround forward delta r5 in
  integratePosition delta r6.

(** The argument of [onUpdate].  [Euler.setFromQuaternion] is three.js code
    that no property below depends on; it is the parameter
    [setFromQuaternion]. *)
Definition flightData (setFromQuaternion : Quaternion -> Euler)
    (ctl : ControlState) (r : Refs) : FlightData :=
  mkFlightData
    (vx (position r), vy (position r), vz (position r))
    (setFromQuaternion (quaternion r))
    (speed r)
    (vy (position r))
    (throttles ctl)
    100
    (gear ctl)
    (flaps ctl)
    (brake ctl)
    (pitch ctl)
    (roll ctl)
    (yaw ctl).

(** One frame: the cells it leaves and the telemetry it hands to [onUpdate]. *)
Definition useFrame (setFromQuaternion : Quaternion -> Euler)
    (cfg : AircraftConfig) (ctl : ControlState) (delta : R) (r0 : Refs)
    : Refs * FlightData :=
  let r := physics cfg ctl delta r0 in
  (r, flightData setFromQuaternion ctl r).

(** A flight: one frame per element, each with its own controls and [delta]. *)
Fixpoint frames (cfg : AircraftConfig) (ticks : list (ControlState * R))
    (r : Refs) : Refs :=
  match ticks with
  | [] => r
  | (ctl, delta) :: rest => frames cfg rest (physics cfg ctl delta r)
  end.

(** ** Values at program points

    Names for what the frame holds between two statements, as functions of
    the frame's inputs. *)

(** [thrustVal] and the cells once the brake branch is passed. *)
Definition afterBrake (cfg : AircraftConfig) (ctl : ControlState) (r : Refs)
    : R * Refs :=
  brakeBranch ctl (fullThrustVal cfg ctl) (readSpeed r).

Definition frameThrustVal (cfg : AircraftConfig) (ctl : ControlState)
    (r : Refs) : R :=
  fst (afterBrake cfg ctl r).

(** [speed.current] from the brake branch to the end of the frame. *)
Definition frameSpeed (cfg : AircraftConfig) (ctl : ControlState) (r : Refs)
    : R :=
  speed (snd (afterBrake cfg ctl r)).

Definition frameThrustVector (cfg : AircraftConfig) (ctl : ControlState)
    (r : Refs) : Vector3 :=
  Vec.multiplyScalar (forwardOf r) (frameThrustVal cfg ctl r).

Definition frameLiftVector (cfg : AircraftConfig) (ctl : ControlState)
    (delta : R) (r : Refs) : Vector3 :=
  liftVector cfg ctl (upOf r) (frameSpeed cfg ctl r) delta.

Definition frameDragVector (cfg : AircraftConfig) (ctl : ControlState)
    (r : Refs) : Vector3 :=
  dragVector cfg ctl (velocity r) (frameSpeed cfg ctl r).

(** [velocity.current] after the four [add] calls. *)
Definition integrated (cfg : AircraftConfig) (ctl : ControlState) (delta : R)
    (r : Refs) : Vector3 :=
  integrateVelocity (velocity r) (frameThrustVector cfg ctl r)
    (gravityVector delta) (frameLiftVector cfg ctl delta r)
    (frameDragVector cfg ctl r) delta.

(** What the ground branch makes of a velocity. *)
Definition clampVelocity (v : Vector3) : Vector3 :=
  Vec.multiplyScalar (if Rlt_dec (vy v) 0 then Vec.setY v 0 else v) 0.995.

(** ** Conditions on the inputs *)

(** Stick and rudder centred, every throttle at zero. *)
Definition neutralInput (ctl : ControlState) : Prop :=
  pitch ctl = 0 /\ roll ctl = 0 /\ yaw ctl = 0
  /\ Forall (fun t => t = 0) (throttles ctl).

(** At rest on the runway, as [useEffect] places the aircraft. *)
Definition atRestOnGround (r : Refs) : Prop :=
  velocity r = Vec.zero /\ vy (position r) = 0.6
  /\ quaternion r = Quat.identity.

(** ** Sample data

    Two aircraft of [AIRCRAFT_FLEET] (src/unnamed/part_000), and the
    controls and cells the examples below run on. *)

Definition trainer : AircraftConfig := mkAircraftConfig 1.0 1.0 1.0 1.0 1.0 1.
Definition raptor : AircraftConfig := mkAircraftConfig 2.5 0.8 0.6 1.8 2.5 2.

(** Neutral axes, all four throttles at zero, brake released. *)
Definition neutral : ControlState :=
  mkControlState 0 0 0 [0; 0; 0; 0] false 0 true.

(** Stick back and right rudder, left engine at 80 percent. *)
Definition pull : ControlState :=
  mkControlState 1 0 (-1) [80; 0] false 1 false.

(** Full left roll with the brake set. *)
Definition bank : ControlState :=
  mkControlState (-0.5) (-1) 0.25 [100; 100] true 2 true.

(** Neutral axes, throttles at zero, brake set, one notch of flaps. *)
Definition parked : ControlState :=
  mkControlState 0 0 0 [0; 0; 0; 0] true 1 true.

(** Level flight along [x] at speed 1, ten units up. *)
Definition cruising : Refs :=
  mkRefs (mkVector3 1 0 0) 1 (mkVector3 0 10 0) Quat.identity.

(** Ten units up with no velocity. *)
Definition hovering : Refs :=
  mkRefs (mkVector3 0 0 0) 0 (mkVector3 0 10 0) Quat.identity.

(** Rolling along the runway at speed 4. *)
Definition rolling : Refs :=
  mkRefs (mkVector3 4 0 0) 4 (mkVector3 0 0.6 0) Quat.identity.

(** On the runway, moving straight down at speed 1. *)
Definition sinking : Refs :=
  mkRefs (mkVector3 0 (-1) 0) 1 (mkVector3 0 0.6 0) Quat.identity.

(** A stand-in for [Euler.setFromQuaternion] where a closed example needs one. *)
Definition noEuler (q : Quaternion) : Euler := (0, 0, 0).

(** ** The throttle loop in closed form

    What the loop adds to its two accumulators while the index stays below
    [engineCount]. *)

Fixpoint throttleSum (vals : list R) : R :=
  match vals with
  | [] => 0
  | val :: rest => val + throttleSum rest
  end.

Fixpoint sideSum (cfg : AircraftConfig) (i : nat) (vals : list R) : R :=
  match vals with
  | [] => 0
  | val :: rest => side cfg i * val + sideSum cfg (S i) rest
  end.

(** Every throttle within the range of the sliders. *)
Definition throttlesInRange (vals : list R) : Prop :=
  Forall (fun t => 0 <= t <= 100) vals.

(** The thrust is cut: the brake is set or every throttle is at zero. *)
Definition thrustCut (ctl : ControlState) : Prop :=
  brake ctl = true \/ Forall (fun t => t = 0) (throttles ctl).

(** ** Animations of the frame callback (src/unnamed/part_001)

    The gear, propeller and camera statements of [useFrame].  They read the
    controls and the cells and write none of them. *)

(** [MathUtils.lerp(x, y, t)] *)
Definition mathLerp (x y t : R) : R := (1 - t) * x + t * y.

(** The gear animation.  [gearPos] is the state the callback closed over,
    [prev] the state the updater passed to [setGearPos] receives; the result
    is the state after the frame. *)
Definition gearStep (gear : bool) (delta gearPos prev : R) : R :=
  let targetGearPos := if gear then 1 else 0 in
  if Rlt_dec 0.01 (Rabs (gearPos - targetGearPos)) then
    mathLerp prev targetGearPos (delta * 3)
  else prev.

(** [controls.throttles[i] || 0] *)
Definition throttleOr0 (ctl : ControlState) (i : nat) : R :=
  match nth_error (throttles ctl) i with
  | Some t => if Req_dec_T t 0 then 0 else t
  | None => 0
  end.

(** What a frame adds to [prop.rotation.z] of propeller [i]. *)
Definition propellerSpin (ctl : ControlState) (i : nat) : R :=
  (throttleOr0 ctl i / 100) * 1.5 + 0.1.

(** [AircraftConfig.type] *)
Inductive AircraftType : Type := Trainer | Jet | Cargo | Stunt.

(** [camOffset] after the [cameraMode] branches. *)
Definition camOffset (cameraMode : nat) (type : AircraftType) : Vector3 :=
  match cameraMode with
  | 1%nat =>
      match type with
      | Trainer => mkVector3 0 0.8 (-0.2)
      | Jet => mkVector3 0 0.7 (-1.2)
      | Cargo => mkVector3 0 2.0 (-0.5)
      | Stunt => mkVector3 0 0.6 (-0.5)
      end
  | 2%nat => mkVector3 10 2 0
  | _ => mkVector3 0 3 10
  end.

Definition targetCamPos (cameraMode : nat) (type : AircraftType) (r : Refs)
    : Vector3 :=
  Vec.add (position r)
    (Vec.applyQuaternion (camOffset cameraMode type) (quaternion r)).

(** [camera.position.lerp(targetCamPos, 0.1)] *)
Definition cameraStep (cameraMode : nat) (type : AircraftType) (r : Refs)
    (camera : Vector3) : Vector3 :=
  Vec.lerp camera (targetCamPos cameraMode type r) 0.1.

(** [Vector3.distanceTo] *)
Definition distanceTo (a b : Vector3) : R :=
  let dx := vx a - vx b in
  let dy := vy a - vy b in
  let dz := vz a - vz b in
  sqrt (dx * dx + dy * dy + dz * dz).

(** ** The App component (src/unnamed/part_002)

    The state [App] keeps with [useState] and the handlers that update it.
    [showHelp] and [selectedAircraftIndex] are left out: no handler below
    reads or writes them.  The messages that [handleRestart] and
    [handleATCRequest] post from a [setTimeout] are separate, later calls of
    [addATCMessage]. *)

Inductive Sender : Type := ATC | Pilot.

Record ATCMessage : Type := mkATCMessage {
  msg_id : String.string;
  msg_sender : Sender;
  msg_text : String.string;
  msg_timestamp : R
}.

Record AppState : Type := mkAppState {
  app_flightData : FlightData;
  app_controls : ControlState;
  app_showHangar : bool;
  app_cameraMode : nat;
  app_resetKey : nat;
  app_atcMessages : list ATCMessage
}.

(** The value both [useState<ControlState>] and [handleRestart] give. *)
Definition defaultControls : ControlState :=
  mkControlState 0 0 0 [0; 0; 0; 0] true 0 true.

(** The value both [useState<FlightData>] and [handleRestart] give. *)
Definition defaultFlightData : FlightData :=
  mkFlightData (0, 0, 0) (0, 0, 0) 0 0 [0; 0; 0; 0] 100 true 0 true 0 0 0.

(** [App] as first rendered: in the hangar. *)
Definition initialApp : AppState :=
  mkAppState defaultFlightData defaultControls true 0 0 [].

Definition setControls (f : ControlState -> ControlState) (s : AppState)
    : AppState :=
  mkAppState (app_flightData s) (f (app_controls s)) (app_showHangar s)
    (app_cameraMode s) (app_resetKey s) (app_atcMessages s).

(** [prev.slice(-50)]: the last 50 elements, all of them when there are
    fewer. *)
Definition sliceLast50 {A : Type} (l : list A) : list A :=
  skipn (length l - 50) l.

(** [setAtcMessages(prev => [...prev.slice(-50), newMessage])]; the id and
    the time come from [Date.now()] and [Math.random()]. *)
Definition addATCMessage (id : String.string) (now : R)
    (text : String.string) (sender : Sender) (prev : list ATCMessage)
    : list ATCMessage :=
  sliceLast50 prev ++ [mkATCMessage id sender text now].

(** [Math.max(0, Math.min(100, x))] *)
Definition clampThrottle (x : R) : R := Rmax 0 (Rmin 100 x).

(** The updater of [setAllThrottles(delta)]. *)
Definition setAllThrottles (delta : R) (c : ControlState) : ControlState :=
  mkControlState (pitch c) (roll c) (yaw c)
    (map (fun t => clampThrottle (t + delta)) (throttles c))
    (brake c) (flaps c) (gear c).

(** [l[index] = value] on a copy, for an index below the length. *)
Fixpoint assignAt (l : list R) (index : nat) (value : R) : list R :=
  match l, index with
  | [], _ => []
  | _ :: rest, O => value :: rest
  | x :: rest, S k => x :: assignAt rest k value
  end.

(** The updater of [handleThrottleChange(index, value)]. *)
Definition handleThrottleChange (index : nat) (value : R) (c : ControlState)
    : ControlState :=
  let newThrottles :=
    if (index <? length (throttles c))%nat then
      assignAt (throttles c) index (clampThrottle value)
    else throttles c in
  mkControlState (pitch c) (roll c) (yaw c) newThrottles
    (brake c) (flaps c) (gear c).

(** [Math.trunc] *)
Definition truncZ (x : R) : Z :=
  if Rle_dec 0 x then Int_part x else (- Int_part (- x))%Z.

(** The remainder [a % b] of JavaScript for [b] not zero:
    [a - b * trunc(a / b)]. *)
Definition jsRem (a b : R) : R := a - b * IZR (truncZ (a / b)).

Definition withPitch (v : R) (c : ControlState) : ControlState :=
  mkControlState v (roll c) (yaw c) (throttles c) (brake c) (flaps c) (gear c).
Definition withRoll (v : R) (c : ControlState) : ControlState :=
  mkControlState (pitch c) v (yaw c) (throttles c) (brake c) (flaps c) (gear c).
Definition withYaw (v : R) (c : ControlState) : ControlState :=
  mkControlState (pitch c) (roll c) v (throttles c) (brake c) (flaps c) (gear c).
Definition withBrake (b : bool) (c : ControlState) : ControlState :=
  mkControlState (pitch c) (roll c) (yaw c) (throttles c) b (flaps c) (gear c).

(** [c => ({ ...c, gear: !c.gear })] *)
Definition toggleGear (c : ControlState) : ControlState :=
  mkControlState (pitch c) (roll c) (yaw c) (throttles c) (brake c) (flaps c)
    (negb (gear c)).

(** [c => ({ ...c, flaps: (c.flaps + 1) % 3 })] *)
Definition cycleFlaps (c : ControlState) : ControlState :=
  mkControlState (pitch c) (roll c) (yaw c) (throttles c) (brake c)
    (jsRem (flaps c + 1) 3) (gear c).

(** [c => ({ ...c, brake: !c.brake })] *)
Definition toggleBrake (c : ControlState) : ControlState :=
  withBrake (negb (brake c)) c.

(** [handleRestart], without the announcement it schedules. *)
Definition handleRestart (s : AppState) : AppState :=
  mkAppState defaultFlightData defaultControls (app_showHangar s)
    (app_cameraMode s) (app_resetKey s + 1) [].

(** [e.code]: the codes the two key handlers name, and [OtherCode] for every
    other key. *)
Inductive KeyCode : Type :=
  | KeyR | ShiftLeft | ShiftRight | Space | KeyZ
  | KeyW | ArrowUp | KeyS | ArrowDown
  | KeyA | ArrowLeft | KeyD | ArrowRight
  | KeyQ | KeyE | KeyG | KeyF | KeyB | KeyC
  | OtherCode.

Definition handleKeyDown (code : KeyCode) (s : AppState) : AppState :=
  if app_showHangar s then s
  else
    match code with
    | KeyR => handleRestart s
    | ShiftLeft | ShiftRight => setControls (setAllThrottles 2) s
    | Space =>
        setControls (withBrake false) (setControls (setAllThrottles 5) s)
    | KeyZ => setControls (setAllThrottles (-5)) s
    | KeyW | ArrowUp => setControls (withPitch 1) s
    | KeyS | ArrowDown => setControls (withPitch (-1)) s
    | KeyA | ArrowLeft => setControls (withRoll 1) s
    | KeyD | ArrowRight => setControls (withRoll (-1)) s
    | KeyQ => setControls (withYaw 1) s
    | KeyE => setControls (withYaw (-1)) s
    | KeyG => setControls toggleGear s
    | KeyF => setControls cycleFlaps s
    | KeyB => setControls toggleBrake s
    | KeyC =>
        mkAppState (app_flightData s) (app_controls s) (app_showHangar s)
          ((app_cameraMode s + 1) mod 3) (app_resetKey s) (app_atcMessages s)
    | OtherCode => s
    end.

Definition handleKeyUp (code : KeyCode) (s : AppState) : AppState :=
  if app_showHangar s then s
  else
    match code with
    | KeyW | ArrowUp | KeyS | ArrowDown => setControls (withPitch 0) s
    | KeyA | ArrowLeft | KeyD | ArrowRight => setControls (withRoll 0) s
    | KeyQ | KeyE => setControls (withYaw 0) s
    | _ => s
    end.

(** [setShowHangar(v)] *)
Definition setShowHangar (v : bool) (s : AppState) : AppState :=
  mkAppState (app_flightData s) (app_controls s) v (app_cameraMode s)
    (app_resetKey s) (app_atcMessages s).

(** [startFlight] *)
Definition startFlight (s : AppState) : AppState :=
  handleRestart (setShowHangar false s).

(** [handleUpdate], the [onUpdate] that [Plane] calls with its telemetry. *)
Definition handleUpdate (data : FlightData) (s : AppState) : AppState :=
  mkAppState data (app_controls s) (app_showHangar s) (app_cameraMode s)
    (app_resetKey s) (app_atcMessages s).

(** What can happen to [App]: the key events, the buttons and sliders of
    [Controls], the hangar's start button, a frame's telemetry and a
    message posted to the log. *)
Inductive AppEvent : Type :=
  | KeyDown (code : KeyCode)
  | KeyUp (code : KeyCode)
  | OnToggleGear
  | OnCycleFlaps
  | OnRestart
  | OnOpenHangar
  | OnStartFlight
  | OnThrottleChange (index : nat) (value : R)
  | OnUpdate (data : FlightData)
  | OnMessage (id : String.string) (now : R) (text : String.string)
      (sender : Sender).

Definition appStep (s : AppState) (e : AppEvent) : AppState :=
  match e with
  | KeyDown code => handleKeyDown code s
  | KeyUp code => handleKeyUp code s
  | OnToggleGear => setControls toggleGear s
  | OnCycleFlaps => setControls cycleFlaps s
  | OnRestart => handleRestart s
  | OnOpenHangar => setShowHangar true s
  | OnStartFlight => startFlight s
  | OnThrottleChange index value =>
      setControls (handleThrottleChange index value) s
  | OnUpdate data => handleUpdate data s
  | OnMessage id now text sender =>
      mkAppState (app_flightData s) (app_controls s) (app_showHangar s)
        (app_cameraMode s) (app_resetKey s)
        (addATCMessage id now text sender (app_atcMessages s))
  end.

Definition appRun (s : AppState) (events : list AppEvent) : AppState :=
  fold_left appStep events s.

(** The ranges the comments of [ControlState] give (src/unnamed/part_002):
    axes at -1, 0 or 1 as the keys set them, four throttles in [0,100],
    flaps 0, 1 or 2. *)
Definition controlsInRange (c : ControlState) : Prop :=
  (pitch c = -1 \/ pitch c = 0 \/ pitch c = 1)
  /\ (roll c = -1 \/ roll c = 0 \/ roll c = 1)
  /\ (yaw c = -1 \/ yaw c = 0 \/ yaw c = 1)
  /\ length (throttles c) = 4%nat
  /\ throttlesInRange (throttles c)
  /\ (flaps c = 0 \/ flaps c = 1 \/ flaps c = 2).

(** ** The instrument panel (src/components/Controls.tsx) *)


(** [flightData.velocity < 0.5 && flightData.altitude > 2] *)
Definition isStalling (fd : FlightData) : bool :=
  Rltb (fd_velocity fd) 0.5 && Rltb 2 (fd_altitude fd).

(** ** More sample data *)

(** The four-engine Titan Hauler of [AIRCRAFT_FLEET]. *)
Definition titan : AircraftConfig := mkAircraftConfig 0.8 1.5 1.8 0.4 0.7 4.

(** The four throttles staggered. *)
Definition staggered : ControlState :=
  mkControlState 0 0 0 [10; 20; 30; 40] false 0 true.

(** Brake set, throttles at zero, full flaps: [bank] without its stick,
    rudder and throttle inputs. *)
Definition held : ControlState :=
  mkControlState 0 0 0 [0; 0; 0; 0] true 2 true.

(** [parked] with the brake released. *)
Definition coasting : ControlState :=
  mkControlState 0 0 0 [0; 0; 0; 0] false 1 true.

(** The four throttles level at 60, brake released. *)
Definition level60 : ControlState :=
  mkControlState 0 0 0 [60; 60; 60; 60] false 0 true.

(** ** The physics block in binary64

    The same statements once more, on the numbers the program has: IEEE 754
    binary64 with round to nearest, where a product can round, overflow to an
    infinity or be NaN.  Each operation is written in the order JavaScript
    evaluates it.  ECMAScript fixes [Math.sin] and [Math.cos] at zero, at the
    infinities and at NaN and leaves them to the engine elsewhere: the
    engine's part is the parameters [sinImpl] and [cosImpl]. *)

Module Double.

Import PrimFloat.
#[local] Set Warnings "-inexact-float".
Local Open Scope float_scope.

Record Vector3 : Type := mkVector3 { vx : float; vy : float; vz : float }.
Record Quaternion : Type :=
  mkQuaternion { qx : float; qy : float; qz : float; qw : float }.

Record AircraftConfig : Type := mkAircraftConfig {
  thrustMult : float;
  liftMult : float;
  dragMult : float;
  turnSpeedMult : float;
  maxSpeedMult : float;
  engineCount : nat
}.

Record ControlState : Type := mkControlState {
  pitch : float;
  roll : float;
  yaw : float;
  throttles : list float;
  brake : bool;
  flaps : float;
  gear : bool
}.

Record Refs : Type := mkRefs {
  velocity : Vector3;
  speed : float;
  position : Vector3;
  quaternion : Quaternion
}.

Definition MAX_THRUST : float := 0.5.
Definition GRAVITY : float := 0.08.
Definition LIFT_COEFFICIENT : float := 0.002.
Definition DRAG_COEFFICIENT : float := 0.0005.
Definition ROTATION_SPEED : float := 0.02.
Definition MIN_TAKEOFF_SPEED : float := 0.8.
Definition MAX_SPEED : float := 4.0.

(** A loop index or an engine count as a number. *)
Fixpoint ofNat (n : nat) : float :=
  match n with
  | O => 0
  | S k => ofNat k + 1
  end.

(** [Math.max(a, b)] and [Math.min(a, b)]: NaN when an argument is NaN. *)
Definition mathMax (a b : float) : float :=
  if is_nan a || is_nan b then nan else if a <? b then b else a.
Definition mathMin (a b : float) : float :=
  if is_nan a || is_nan b then nan else if b <? a then b else a.

(** [Math.sin(x)] and [Math.cos(x)]. *)
Definition mathSin (sinImpl : float -> float) (x : float) : float :=
  if is_nan x || is_infinity x then nan
  else if x =? 0 then x
  else sinImpl x.
Definition mathCos (cosImpl : float -> float) (x : float) : float :=
  if is_nan x || is_infinity x then nan
  else if x =? 0 then 1
  else cosImpl x.

Definition add (a b : Vector3) : Vector3 :=
  mkVector3 (vx a + vx b) (vy a + vy b) (vz a + vz b).

Definition multiplyScalar (a : Vector3) (s : float) : Vector3 :=
  mkVector3 (vx a * s) (vy a * s) (vz a * s).

Definition length (a : Vector3) : float :=
  sqrt (vx a * vx a + vy a * vy a + vz a * vz a).

(** [divideScalar(this.length() || 1)]: zero and NaN are the falsy
    numbers. *)
Definition normalize (a : Vector3) : Vector3 :=
  let l := length a in
  multiplyScalar a (1 / (if (l =? 0) || is_nan l then 1 else l)).

Definition lerp (a v : Vector3) (alpha : float) : Vector3 :=
  mkVector3 (vx a + (vx v - vx a) * alpha)
            (vy a + (vy v - vy a) * alpha)
            (vz a + (vz v - vz a) * alpha).

Definition applyQuaternion (v : Vector3) (q : Quaternion) : Vector3 :=
  let tx := 2 * (qy q * vz v - qz q * vy v) in
  let ty := 2 * (qz q * vx v - qx q * vz v) in
  let tz := 2 * (qx q * vy v - qy q * vx v) in
  mkVector3 (vx v + qw q * tx + qy q * tz - qz q * ty)
            (vy v + qw q * ty + qz q * tx - qx q * tz)
            (vz v + qw q * tz + qx q * ty - qy q * tx).

Definition setFromAxisAngle (sinImpl cosImpl : float -> float)
    (axis : Vector3) (angle : float) : Quaternion :=
  let halfAngle := angle / 2 in
  let s := mathSin sinImpl halfAngle in
  mkQuaternion (vx axis * s) (vy axis * s) (vz axis * s)
    (mathCos cosImpl halfAngle).

Definition multiply (a b : Quaternion) : Quaternion :=
  mkQuaternion
    (qx a * qw b + qw a * qx b + qy a * qz b - qz a * qy b)
    (qy a * qw b + qw a * qy b + qz a * qx b - qx a * qz b)
    (qz a * qw b + qw a * qz b + qx a * qy b - qy a * qx b)
    (qw a * qw b - qx a * qx b - qy a * qy b - qz a * qz b).

(** [Quaternion.length()] *)
Definition quaternionLength (q : Quaternion) : float :=
  sqrt (qx q * qx q + qy q * qy q + qz q * qz q + qw q * qw q).

(** One call of the [forEach] body on [(totalThrustPercent, yawMoment)]. *)
Definition throttleBody (cfg : AircraftConfig) (i : nat) (val : float)
    (acc : float * float) : float * float :=
  if (engineCount cfg <=? i)%nat then acc
  else
    let totalThrustPercent := fst acc + val in
    let yawMoment :=
      if (1 <? engineCount cfg)%nat then
        let side := (ofNat i / (ofNat (engineCount cfg) - 1)) * 2 - 1 in
        snd acc + side * val
      else snd acc in
    (totalThrustPercent, yawMoment).

Fixpoint throttleLoop (cfg : AircraftConfig) (i : nat) (vals : list float)
    (acc : float * float) : float * float :=
  match vals with
  | [] => acc
  | val :: rest => throttleLoop cfg (S i) rest (throttleBody cfg i val acc)
  end.

(** The physics block of [useFrame], statement by statement. *)
Definition physics (sinImpl cosImpl : float -> float) (cfg : AircraftConfig)
    (ctl : ControlState) (delta : float) (r0 : Refs) : Refs :=
  let forward := applyQuaternion (mkVector3 0 0 (-1)) (quaternion r0) in
  let up := applyQuaternion (mkVector3 0 1 0) (quaternion r0) in
  let right := applyQuaternion (mkVector3 1 0 0) (quaternion r0) in
  let speed0 := length (velocity r0) in
  let loop := throttleLoop cfg 0 (throttles ctl) (0, 0) in
  let totalThrustPercent := fst loop in
  let yawMoment := snd loop in
  let avgThrottle := totalThrustPercent / mathMax 1 (ofNat (engineCount cfg)) in
  let thrustVal0 := (avgThrottle / 100) * MAX_THRUST * thrustMult cfg in
  let braking := brake ctl && (vy (position r0) <? 1.0) in
  let thrustVal := if braking then 0 else thrustVal0 in
  let speed1 := if braking then speed0 * 0.95 else speed0 in
  let thrustVector := multiplyScalar forward thrustVal in
  let gravityVector := mkVector3 0 (- GRAVITY * delta * 60) 0 in
  let maxSpeedForCalc := MAX_SPEED * maxSpeedMult cfg in
  let liftFactor := (speed1 / maxSpeedForCalc) * (1 + flaps ctl * 0.3) in
  let effectiveLift :=
    mathMax 0 (liftFactor * LIFT_COEFFICIENT * speed1 * 1000 * liftMult cfg) in
  let liftVector := multiplyScalar up (effectiveLift * delta) in
  let dragVal :=
    (speed1 * speed1) * DRAG_COEFFICIENT * dragMult cfg
    + (if gear ctl then 0.001 else 0) + (flaps ctl * 0.002) in
  let dragVector := multiplyScalar (normalize (velocity r0)) (- dragVal) in
  let isOnGround := vy (position r0) <=? 0.6 in
  let v1 :=
    add (add (add (add (velocity r0) (multiplyScalar thrustVector delta))
                gravityVector)
           liftVector)
      dragVector in
  let v2 :=
    if isOnGround then
      multiplyScalar
        (if vy v1 <? 0 then mkVector3 (vx v1) 0 (vz v1) else v1) 0.995
    else v1 in
  let p1 :=
    if isOnGround then mkVector3 (vx (position r0)) 0.6 (vz (position r0))
    else position r0 in
  let controlAuthority :=
    mathMin (speed1 / MIN_TAKEOFF_SPEED) 1.5 * ROTATION_SPEED
    * turnSpeedMult cfg in
  let pitchAmt := pitch ctl * controlAuthority * delta * 60 in
  let pitchQuat := setFromAxisAngle sinImpl cosImpl right pitchAmt in
  let rollAmt := - roll ctl * controlAuthority * 1.5 * delta * 60 in
  let rollQuat := setFromAxisAngle sinImpl cosImpl forward rollAmt in
  let diffThrustFactor := 0.0005 in
  let totalYawInput := - yaw ctl + (yawMoment * diffThrustFactor) in
  let yawAmt :=
    totalYawInput * (if isOnGround then 0.02 else controlAuthority * 0.5)
    * delta * 60 in
  let yawQuat := setFromAxisAngle sinImpl cosImpl up yawAmt in
  let q1 := multiply (multiply (multiply (quaternion r0) pitchQuat) yawQuat)
              rollQuat in
  let v3 :=
    if negb isOnGround && (0.1 <? speed1) then
      lerp v2 (multiplyScalar forward speed1) (delta * 0.5)
    else v2 in
  let p2 := add p1 (multiplyScalar v3 (delta * 60)) in
  mkRefs v3 speed1 p2 q1.

(** [n] frames with the same controls and the same [delta]. *)
Fixpoint frames (sinImpl cosImpl : float -> float) (cfg : AircraftConfig)
    (ctl : ControlState) (delta : float) (n : nat) (r : Refs) : Refs :=
  match n with
  | O => r
  | S k =>
      frames sinImpl cosImpl cfg ctl delta k
        (physics sinImpl cosImpl cfg ctl delta r)
  end.

(** The orientation invariant as the specification tests it:
    [| |q| - 1 | <= 1e-6]. *)
Definition unitWithinTolerance (q : Quaternion) : bool :=
  abs (quaternionLength q - 1) <=? 1e-6.

(** The Titan Hauler, neutral controls with the gear down, a frame of
    [1 / 60] seconds, and the cells of a ground roll at speed 4. *)
Definition titan : AircraftConfig := mkAircraftConfig 0.8 1.5 1.8 0.4 0.7 4.
Definition neutral : ControlState :=
  mkControlState 0 0 0 [0; 0; 0; 0] false 0 true.
Definition sixtieth : float := 1 / 60.
Definition rolling : Refs :=
  mkRefs (mkVector3 4 0 0) 4 (mkVector3 0 0.6 0) (mkQuaternion 0 0 0 1).

(** A stand-in for the engine's part of [Math.sin] and [Math.cos] where a
    closed example needs one. *)
Definition noImpl (x : float) : float := nan.

End Double.

(** ** Sample messages

    An exchange of [handleATCRequest('landing')], a log of two messages and
    a log of 55. *)

Module AtcSamples.

Import String.
Local Open Scope string_scope.

Definition pilotCall : ATCMessage :=
  mkATCMessage "17000000000000.25" Pilot
    "Tower, SkyBound 1 inbound for landing." 1700000000000%R.

Definition towerReply : ATCMessage :=
  mkATCMessage "17000000015000.75" ATC
    "SkyBound 1, Tower. Make left traffic Runway 01. Wind 230 at 5. Cleared to land."
    1700000001500%R.

Definition maydayId : string := "17000000090000.5".
Definition maydayText : string :=
  "MAYDAY MAYDAY MAYDAY! SkyBound 1 experiencing engine failure!".
Definition maydayTime : R := 1700000009000%R.

Definition shortLog : list ATCMessage := [pilotCall; towerReply].

Definition longLog : list ATCMessage :=
  repeat pilotCall 27 ++ repeat towerReply 28.

End AtcSamples.

(** * Properties *)

(** ** Differential yaw *)

Lemma throttleLoop_single_engine (cfg : AircraftConfig) (vals : list R) :
  engineCount cfg = 1%nat ->
  forall (i : nat) (acc : R * R),
    snd (throttleLoop cfg i vals acc) = snd acc.
Proof.
  intros Hone.
  induction vals as [| val rest IH]; intros i acc; simpl.
  - reflexivity.
  - rewrite IH. unfold throttleBody. rewrite Hone.
    destruct (1 <=? i)%nat; reflexivity.
Qed.

(** Past the last engine the loop body returns at once. *)
Lemma throttleLoop_past_engines (cfg : AircraftConfig) (vals : list R) :
  forall (i : nat) (acc : R * R),
    (engineCount cfg <= i)%nat ->
    throttleLoop cfg i vals acc = acc.
Proof.
  induction vals as [| val rest IH]; intros i acc Hle; simpl.
  - reflexivity.
  - unfold throttleBody.
    apply Nat.leb_le in Hle as Hb. rewrite Hb.
    apply IH. apply Nat.le_trans with i; auto.
Qed.

(** C8.  With [engineCount = 1] the yaw moment is 0, for every throttle
    list (of any length and with any values, those of [0,100] among them). *)
Theorem single_engine_yawMoment_zero :
  forall (cfg : AircraftConfig) (ctl : ControlState),
    engineCount cfg = 1%nat -> yawMoment cfg ctl = 0.
Proof.
  intros cfg ctl Hone. unfold yawMoment.
  now rewrite throttleLoop_single_engine.
Qed.

Lemma single_engine_yawMoment_zero_witness :
  engineCount trainer = 1%nat
  /\ yawMoment trainer (mkControlState 0 0 0 [100; 40] false 0 true) = 0.
Proof.
  split; [reflexivity | apply single_engine_yawMoment_zero; reflexivity].
Defined.

Lemma yawMoment_two_engines (cfg : AircraftConfig) (ctl : ControlState)
    (a b : R) (more : list R) :
  engineCount cfg = 2%nat ->
  throttles ctl = a :: b :: more ->
  yawMoment cfg ctl = b - a.
Proof.
  intros Htwo Hthr. unfold yawMoment. rewrite Hthr. simpl.
  rewrite throttleLoop_past_engines by (rewrite Htwo; auto).
  unfold throttleBody, side. rewrite Htwo. simpl. lra.
Qed.

(** C7.  On a 2-engine vehicle, throttle [T] on engine 0 alone and throttle
    [T] on engine 1 alone give yaw moments of equal magnitude and opposite
    sign: [-T] and [T].  Throttles past the second engine do not count. *)
Theorem differential_thrust_symmetric :
  forall (cfg : AircraftConfig) (left right : ControlState) (T : R)
         (more more' : list R),
    engineCount cfg = 2%nat ->
    0 <= T <= 100 ->
    throttles left = T :: 0 :: more ->
    throttles right = 0 :: T :: more' ->
    yawMoment cfg left = - yawMoment cfg right
    /\ Rabs (yawMoment cfg left) = Rabs (yawMoment cfg right)
    /\ yawMoment cfg left = - T
    /\ yawMoment cfg right = T.
Proof.
  intros cfg left right T more more' Htwo HT Hl Hr.
  rewrite (yawMoment_two_engines cfg left T 0 more Htwo Hl).
  rewrite (yawMoment_two_engines cfg right 0 T more' Htwo Hr).
  replace (0 - T) with (- T) by ring.
  replace (T - 0) with T by ring.
  rewrite Rabs_Ropp. repeat split; reflexivity.
Qed.

Lemma differential_thrust_symmetric_witness :
  (engineCount raptor = 2%nat /\ 0 <= 70 <= 100)
  /\ yawMoment raptor (mkControlState 0 0 0 [70; 0; 0; 0] false 0 true) = - 70
  /\ yawMoment raptor (mkControlState 0 0 0 [0; 70; 0; 0] false 0 true) = 70.
Proof.
  assert (Htwo : engineCount raptor = 2%nat) by reflexivity.
  assert (HT : 0 <= 70 <= 100) by lra.
  split; [split; assumption |].
  exact (proj2 (proj2
           (differential_thrust_symmetric raptor
              (mkControlState 0 0 0 [70; 0; 0; 0] false 0 true)
              (mkControlState 0 0 0 [0; 70; 0; 0] false 0 true)
              70 [0; 0] [0; 0] Htwo HT eq_refl eq_refl))).
Defined.

(** ** Orientation *)

(** The scalar speed the frame works with: the length of the velocity the
    frame starts with, after the brake branch. *)
Lemma frame_speed (cfg : AircraftConfig) (ctl : ControlState) (r : Refs) :
  frameSpeed cfg ctl r
  = if braking ctl r then Vec.length (velocity r) * 0.95
    else Vec.length (velocity r).
Proof.
  unfold frameSpeed, afterBrake, brakeBranch.
  replace (braking ctl (readSpeed r)) with (braking ctl r) by reflexivity.
  destruct (braking ctl r); reflexivity.
Qed.

Lemma brakeBranch_keeps (ctl : ControlState) (thrustVal : R) (r : Refs) :
  velocity (snd (brakeBranch ctl thrustVal r)) = velocity r
  /\ position (snd (brakeBranch ctl thrustVal r)) = position r
  /\ quaternion (snd (brakeBranch ctl thrustVal r)) = quaternion r.
Proof.
  unfold brakeBranch. destruct (braking ctl r); repeat split; reflexivity.
Qed.

(** The orientation after a frame: the three rotations about the axes of
    the frame's start, composed onto the orientation of the frame's start. *)
Lemma physics_quaternion (cfg : AircraftConfig) (ctl : ControlState)
    (delta : R) (r : Refs) :
  quaternion (physics cfg ctl delta r)
  = rotate (quaternion r)
      (Quat.setFromAxisAngle (rightOf r)
         (pitchAmt cfg ctl (frameSpeed cfg ctl r) delta))
      (Quat.setFromAxisAngle (upOf r)
         (yawAmt cfg ctl (isOnGround r) (frameSpeed cfg ctl r) delta))
      (Quat.setFromAxisAngle (forwardOf r)
         (rollAmt cfg ctl (frameSpeed cfg ctl r) delta)).
Proof.
  unfold physics, stability, integratePosition, frameSpeed.
  fold (afterBrake cfg ctl r).
  set (br := afterBrake cfg ctl r).
  assert (Hg : isOnGround (snd br) = isOnGround r).
  { unfold isOnGround, br, afterBrake.
    now rewrite (proj1 (proj2 (brakeBranch_keeps _ _ _))). }
  assert (Hq : quaternion (snd br) = quaternion r).
  { unfold br, afterBrake. now rewrite (proj2 (proj2 (brakeBranch_keeps _ _ _))). }
  rewrite Hg.
  destruct (isOnGround r); simpl.
  - now rewrite Hq.
  - destruct (Rltb 0.1 (speed (snd br))); simpl; now rewrite Hq.
Qed.

Lemma multiply_lengthSq (a b : Quaternion) :
  Quat.lengthSq (Quat.multiply a b) = Quat.lengthSq a * Quat.lengthSq b.
Proof. destruct a, b. unfold Quat.lengthSq, Quat.multiply. simpl. ring. Qed.

Lemma setFromAxisAngle_lengthSq (axis : Vector3) (angle : R) :
  Vec.lengthSq axis = 1 ->
  Quat.lengthSq (Quat.setFromAxisAngle axis angle) = 1.
Proof.
  intros Hax. destruct axis as [x y z].
  unfold Vec.lengthSq, Vec.dot in Hax. simpl in Hax.
  unfold Quat.lengthSq, Quat.setFromAxisAngle. simpl.
  pose proof (sin2_cos2 (angle / 2)) as Hsc. unfold Rsqr in Hsc.
  set (s := sin (angle / 2)) in *. set (c := cos (angle / 2)) in *.
  replace (x * s * (x * s) + y * s * (y * s) + z * s * (z * s) + c * c)
    with ((x * x + y * y + z * z) * (s * s) + c * c) by ring.
  rewrite Hax. lra.
Qed.

(** [applyQuaternion] changes the squared length of a vector by a multiple
    of [1 - |q|^2]: under a unit quaternion it is a rotation. *)
Lemma applyQuaternion_lengthSq (v : Vector3) (q : Quaternion) :
  Vec.lengthSq (Vec.applyQuaternion v q)
  = Vec.lengthSq v
    + (1 - Quat.lengthSq q)
      * (4 * (qx q * vx v + qy q * vy v + qz q * vz v)
           * (qx q * vx v + qy q * vy v + qz q * vz v)
         - 4 * (qx q * qx q + qy q * qy q + qz q * qz q) * Vec.lengthSq v).
Proof.
  destruct v, q.
  unfold Vec.lengthSq, Vec.dot, Vec.applyQuaternion, Quat.lengthSq. simpl.
  ring.
Qed.

Lemma applyQuaternion_unit (v : Vector3) (q : Quaternion) :
  Quat.lengthSq q = 1 -> Vec.lengthSq v = 1 ->
  Vec.lengthSq (Vec.applyQuaternion v q) = 1.
Proof.
  intros Hq Hv. rewrite applyQuaternion_lengthSq, Hq, Hv. ring.
Qed.

Lemma lengthSq_nonneg (q : Quaternion) : 0 <= Quat.lengthSq q.
Proof. destruct q. unfold Quat.lengthSq. simpl. nra. Qed.

Lemma length_one_iff (q : Quaternion) :
  Quat.length q = 1 <-> Quat.lengthSq q = 1.
Proof.
  unfold Quat.length. split; intros H.
  - rewrite <- (sqrt_sqrt (Quat.lengthSq q) (lengthSq_nonneg q)), H. ring.
  - rewrite H. apply sqrt_1.
Qed.

Lemma physics_unit (cfg : AircraftConfig) (ctl : ControlState) (delta : R)
    (r : Refs) :
  Quat.lengthSq (quaternion r) = 1 ->
  Quat.lengthSq (quaternion (physics cfg ctl delta r)) = 1.
Proof.
  intros Hq. rewrite physics_quaternion. unfold rotate.
  rewrite !multiply_lengthSq, Hq.
  rewrite !setFromAxisAngle_lengthSq;
    try (apply applyQuaternion_unit; [exact Hq |];
         unfold Vec.lengthSq, Vec.dot; simpl; ring).
  ring.
Qed.

(** C4, amended.  In exact arithmetic: from a unit orientation, after any
    number of frames, whatever the controls, the time steps, the vehicle and
    the rest of the state, the orientation has magnitude 1.  The source has
    no renormalisation step: the three factors are unit quaternions because
    their axes are the rotated unit axes, and the magnitude of a product is
    the product of the magnitudes.  Nothing in the frame removes an error
    that rounding puts into the magnitude; the run in binary64 at the end of
    the file leaves the tolerance. *)
Theorem orientation_unit :
  forall (cfg : AircraftConfig) (ticks : list (ControlState * R)) (r : Refs),
    Quat.length (quaternion r) = 1 ->
    Quat.length (quaternion (frames cfg ticks r)) = 1.
Proof.
  intros cfg ticks.
  induction ticks as [| [ctl delta] rest IH]; intros r Hr; simpl.
  - exact Hr.
  - apply IH. apply length_one_iff. apply physics_unit.
    now apply length_one_iff.
Qed.

Lemma orientation_unit_witness :
  Quat.length (quaternion initialRefs) = 1
  /\ Quat.length
       (quaternion
          (frames raptor [(pull, 1 / 60); (bank, 1 / 30); (neutral, 0)]
             initialRefs)) = 1.
Proof.
  assert (H0 : Quat.length (quaternion initialRefs) = 1).
  { apply length_one_iff. unfold Quat.lengthSq. simpl. ring. }
  split; [exact H0 | apply orientation_unit; exact H0].
Defined.

(** ** The frame, cell by cell *)

Lemma afterBrake_keeps (cfg : AircraftConfig) (ctl : ControlState) (r : Refs) :
  velocity (snd (afterBrake cfg ctl r)) = velocity r
  /\ position (snd (afterBrake cfg ctl r)) = position r
  /\ quaternion (snd (afterBrake cfg ctl r)) = quaternion r.
Proof. unfold afterBrake. apply (brakeBranch_keeps ctl _ (readSpeed r)). Qed.

Lemma isOnGround_afterBrake (cfg : AircraftConfig) (ctl : ControlState)
    (r : Refs) :
  isOnGround (snd (afterBrake cfg ctl r)) = isOnGround r.
Proof.
  unfold isOnGround. now rewrite (proj1 (proj2 (afterBrake_keeps cfg ctl r))).
Qed.

(** The velocity a frame leaves: the integrated velocity, clamped and damped
    on the ground, blended towards the nose in the air above speed 0.1. *)
Lemma physics_velocity (cfg : AircraftConfig) (ctl : ControlState)
    (delta : R) (r : Refs) :
  velocity (physics cfg ctl delta r)
  = if isOnGround r then clampVelocity (integrated cfg ctl delta r)
    else if Rltb 0.1 (frameSpeed cfg ctl r) then
      Vec.lerp (integrated cfg ctl delta r)
        (Vec.multiplyScalar (forwardOf r) (frameSpeed cfg ctl r))
        (delta * 0.5)
    else integrated cfg ctl delta r.
Proof.
  unfold physics, stability, integratePosition.
  fold (afterBrake cfg ctl r).
  rewrite isOnGround_afterBrake.
  unfold integrated, frameLiftVector, frameDragVector, frameThrustVector,
    frameThrustVal, frameSpeed, clampVelocity.
  destruct (afterBrake_keeps cfg ctl r) as (Hv & _ & _).
  destruct (isOnGround r); simpl.
  - now rewrite Hv.
  - destruct (Rltb 0.1 (speed (snd (afterBrake cfg ctl r)))); simpl;
      now rewrite Hv.
Qed.

(** The position a frame leaves: on the ground [y] is first set to 0.6;
    then the new velocity is added, scaled by [delta * 60]. *)
Lemma physics_position (cfg : AircraftConfig) (ctl : ControlState)
    (delta : R) (r : Refs) :
  position (physics cfg ctl delta r)
  = Vec.add
      (if isOnGround r then Vec.setY (position r) 0.6 else position r)
      (Vec.multiplyScalar (velocity (physics cfg ctl delta r)) (delta * 60)).
Proof.
  unfold physics, stability, integratePosition.
  fold (afterBrake cfg ctl r).
  rewrite isOnGround_afterBrake.
  destruct (afterBrake_keeps cfg ctl r) as (_ & Hp & _).
  destruct (isOnGround r); simpl.
  - now rewrite Hp.
  - destruct (Rltb 0.1 (speed (snd (afterBrake cfg ctl r)))); simpl;
      now rewrite Hp.
Qed.

(** The [speed] cell a frame leaves is the one the brake branch left. *)
Lemma physics_speed (cfg : AircraftConfig) (ctl : ControlState)
    (delta : R) (r : Refs) :
  speed (physics cfg ctl delta r) = frameSpeed cfg ctl r.
Proof.
  unfold physics, stability, integratePosition, frameSpeed.
  fold (afterBrake cfg ctl r).
  destruct (isOnGround (snd (afterBrake cfg ctl r))); simpl.
  - reflexivity.
  - destruct (Rltb 0.1 (speed (snd (afterBrake cfg ctl r)))); reflexivity.
Qed.

(** ** Small facts on vectors, quaternions and comparisons *)

Lemma vec_ext (a b : Vector3) :
  vx a = vx b -> vy a = vy b -> vz a = vz b -> a = b.
Proof. destruct a, b. simpl. intros -> -> ->. reflexivity. Qed.

Lemma quat_ext (a b : Quaternion) :
  qx a = qx b -> qy a = qy b -> qz a = qz b -> qw a = qw b -> a = b.
Proof. destruct a, b. simpl. intros -> -> -> ->. reflexivity. Qed.

Lemma Rltb_true (a b : R) : a < b -> Rltb a b = true.
Proof. intros H. unfold Rltb. destruct (Rlt_dec a b); [reflexivity | lra]. Qed.

Lemma Rltb_false (a b : R) : b <= a -> Rltb a b = false.
Proof. intros H. unfold Rltb. destruct (Rlt_dec a b); [lra | reflexivity]. Qed.

Lemma Rleb_true (a b : R) : a <= b -> Rleb a b = true.
Proof. intros H. unfold Rleb. destruct (Rle_dec a b); [reflexivity | lra]. Qed.

Lemma Rleb_false (a b : R) : b < a -> Rleb a b = false.
Proof. intros H. unfold Rleb. destruct (Rle_dec a b); [lra | reflexivity]. Qed.

Lemma length_zero : Vec.length Vec.zero = 0.
Proof.
  unfold Vec.length, Vec.lengthSq, Vec.dot. simpl.
  replace (0 * 0 + 0 * 0 + 0 * 0) with 0 by ring. apply sqrt_0.
Qed.

(** The guard of [normalize]: the zero vector stays the zero vector. *)
Lemma normalize_zero : Vec.normalize Vec.zero = Vec.zero.
Proof.
  unfold Vec.normalize. rewrite length_zero.
  destruct (Req_dec_T 0 0) as [_ | Hne]; [| now elim Hne].
  apply vec_ext; simpl; field.
Qed.

Lemma length_along_x (a : R) : 0 <= a -> Vec.length (mkVector3 a 0 0) = a.
Proof.
  intros Ha. unfold Vec.length, Vec.lengthSq, Vec.dot. simpl.
  replace (a * a + 0 * 0 + 0 * 0) with (a * a) by ring.
  now apply sqrt_square.
Qed.

Lemma normalize_along_x (a : R) :
  0 < a -> Vec.normalize (mkVector3 a 0 0) = mkVector3 1 0 0.
Proof.
  intros Ha. unfold Vec.normalize. rewrite length_along_x by lra.
  destruct (Req_dec_T a 0) as [H0 | _]; [lra |].
  apply vec_ext; simpl; field; lra.
Qed.

Lemma setFromAxisAngle_zero (axis : Vector3) :
  Quat.setFromAxisAngle axis 0 = Quat.identity.
Proof.
  unfold Quat.setFromAxisAngle, Quat.identity.
  replace (0 / 2) with 0 by field. rewrite sin_0, cos_0.
  apply quat_ext; simpl; ring.
Qed.

Lemma multiply_identity (q : Quaternion) : Quat.multiply q Quat.identity = q.
Proof. apply quat_ext; simpl; ring. Qed.

Lemma rotate_identity (q : Quaternion) :
  rotate q Quat.identity Quat.identity Quat.identity = q.
Proof. unfold rotate. now rewrite !multiply_identity. Qed.

Lemma effectiveLift_zero (cfg : AircraftConfig) (ctl : ControlState) :
  effectiveLift cfg ctl 0 = 0.
Proof.
  unfold effectiveLift.
  replace (liftFactor cfg ctl 0 * LIFT_COEFFICIENT * 0 * 1000 * liftMult cfg)
    with 0 by ring.
  apply Rmax_left. lra.
Qed.

Lemma dragVector_zero (cfg : AircraftConfig) (ctl : ControlState) (sp : R) :
  dragVector cfg ctl Vec.zero sp = Vec.zero.
Proof.
  unfold dragVector. rewrite normalize_zero. apply vec_ext; simpl; ring.
Qed.

Lemma throttleLoop_all_zero (cfg : AircraftConfig) (vals : list R) :
  Forall (fun t => t = 0) vals ->
  forall i : nat, throttleLoop cfg i vals (0, 0) = (0, 0).
Proof.
  induction 1 as [| val rest Hval _ IH]; intros i; simpl.
  - reflexivity.
  - subst val.
    replace (throttleBody cfg i 0 (0, 0)) with ((0, 0) : R * R); [apply IH |].
    unfold throttleBody.
    destruct (engineCount cfg <=? i)%nat; [reflexivity |].
    destruct (1 <? engineCount cfg)%nat; simpl; f_equal; ring.
Qed.

(** ** Rest on the runway *)

Lemma neutral_thrust (cfg : AircraftConfig) (ctl : ControlState) (r : Refs) :
  neutralInput ctl -> frameThrustVal cfg ctl r = 0.
Proof.
  intros (_ & _ & _ & Hthr).
  unfold frameThrustVal, afterBrake, brakeBranch.
  destruct (braking ctl (readSpeed r)); simpl; [reflexivity |].
  unfold fullThrustVal, avgThrottle, totalThrustPercent.
  rewrite throttleLoop_all_zero by exact Hthr. simpl.
  unfold Rdiv. ring.
Qed.

Lemma neutral_yawMoment (cfg : AircraftConfig) (ctl : ControlState) :
  neutralInput ctl -> yawMoment cfg ctl = 0.
Proof.
  intros (_ & _ & _ & Hthr). unfold yawMoment.
  now rewrite throttleLoop_all_zero.
Qed.

Lemma rest_frameSpeed (cfg : AircraftConfig) (ctl : ControlState) (r : Refs) :
  velocity r = Vec.zero -> frameSpeed cfg ctl r = 0.
Proof.
  intros Hv. rewrite frame_speed, Hv, length_zero.
  destruct (braking ctl r); ring.
Qed.

(** With stick, rudder and throttles at zero the three rotation angles are
    zero and the orientation stays. *)
Lemma neutral_quaternion (cfg : AircraftConfig) (ctl : ControlState)
    (delta : R) (r : Refs) :
  neutralInput ctl -> quaternion (physics cfg ctl delta r) = quaternion r.
Proof.
  intros Hn. pose proof (neutral_yawMoment cfg ctl Hn) as Hym.
  destruct Hn as (Hp & Hr & Hyw & _).
  rewrite physics_quaternion.
  replace (pitchAmt cfg ctl (frameSpeed cfg ctl r) delta) with 0
    by (unfold pitchAmt; rewrite Hp; ring).
  replace (rollAmt cfg ctl (frameSpeed cfg ctl r) delta) with 0
    by (unfold rollAmt; rewrite Hr; ring).
  replace (yawAmt cfg ctl (isOnGround r) (frameSpeed cfg ctl r) delta) with 0
    by (unfold yawAmt, totalYawInput; rewrite Hyw, Hym; ring).
  now rewrite !setFromAxisAngle_zero, rotate_identity.
Qed.

(** One frame from rest on the runway with neutral input: gravity is the
    only force, and the ground branch removes it. *)
Lemma rest_frame (cfg : AircraftConfig) (ctl : ControlState) (delta : R)
    (r : Refs) :
  neutralInput ctl -> 0 < delta -> atRestOnGround r ->
  atRestOnGround (physics cfg ctl delta r)
  /\ position (physics cfg ctl delta r) = position r.
Proof.
  intros Hn Hd (Hv & Hy & Hq).
  assert (Hg : isOnGround r = true).
  { unfold isOnGround. apply Rleb_true. rewrite Hy. lra. }
  assert (Hvel : velocity (physics cfg ctl delta r) = Vec.zero).
  { rewrite physics_velocity, Hg.
    assert (Hi : integrated cfg ctl delta r
                 = mkVector3 0 (- GRAVITY * delta * 60) 0).
    { unfold integrated, frameThrustVector, frameLiftVector, frameDragVector.
      rewrite (neutral_thrust cfg ctl r Hn), (rest_frameSpeed cfg ctl r Hv).
      unfold liftVector. rewrite effectiveLift_zero, Hv, dragVector_zero.
      apply vec_ext; simpl; ring. }
    rewrite Hi. unfold clampVelocity. simpl.
    destruct (Rlt_dec (- GRAVITY * delta * 60) 0) as [_ | Hge].
    - apply vec_ext; simpl; ring.
    - exfalso. apply Hge. unfold GRAVITY. lra. }
  assert (Hpos : position (physics cfg ctl delta r) = position r).
  { rewrite physics_position, Hvel, Hg.
    apply vec_ext; simpl; try ring. rewrite Hy. ring. }
  repeat split.
  - exact Hvel.
  - now rewrite Hpos.
  - rewrite neutral_quaternion by exact Hn. exact Hq.
  - exact Hpos.
Qed.

(** C5.  From rest on the ground ([position.y = 0.6], zero velocity,
    identity orientation), with neutral axes and all throttles at zero in
    every frame and every [delta] positive, after any number of frames the
    velocity is zero and [position.y] is 0.6: the ground branch absorbs
    gravity. *)
Theorem zero_input_equilibrium :
  forall (cfg : AircraftConfig) (ticks : list (ControlState * R)) (r : Refs),
    atRestOnGround r ->
    Forall (fun tick => neutralInput (fst tick) /\ 0 < snd tick) ticks ->
    velocity (frames cfg ticks r) = Vec.zero
    /\ vy (position (frames cfg ticks r)) = 0.6.
Proof.
  intros cfg ticks r Hr Hticks. revert r Hr.
  induction Hticks as [| [ctl delta] rest [Hn Hd] _ IH]; intros r Hr; simpl.
  - destruct Hr as (Hv & Hy & _). split; assumption.
  - apply IH. simpl in Hn, Hd.
    exact (proj1 (rest_frame cfg ctl delta r Hn Hd Hr)).
Qed.

Lemma zero_input_equilibrium_witness :
  (atRestOnGround initialRefs
   /\ Forall (fun tick => neutralInput (fst tick) /\ 0 < snd tick)
        [(neutral, 1 / 60); (parked, 1 / 30)])
  /\ velocity (frames trainer [(neutral, 1 / 60); (parked, 1 / 30)] initialRefs)
     = Vec.zero
  /\ vy (position
           (frames trainer [(neutral, 1 / 60); (parked, 1 / 30)] initialRefs))
     = 0.6.
Proof.
  assert (Hr : atRestOnGround initialRefs) by (repeat split; reflexivity).
  assert (Ht : Forall (fun tick => neutralInput (fst tick) /\ 0 < snd tick)
                 [(neutral, 1 / 60); (parked, 1 / 30)]).
  { repeat constructor; simpl; lra. }
  split; [repeat split; assumption |].
  exact (zero_input_equilibrium trainer _ initialRefs Hr Ht).
Defined.

(** ** A frame of zero duration *)

Lemma zero_delta_integrated (cfg : AircraftConfig) (ctl : ControlState)
    (r : Refs) :
  integrated cfg ctl 0 r = Vec.add (velocity r) (frameDragVector cfg ctl r).
Proof.
  unfold integrated, integrateVelocity, frameLiftVector, liftVector,
    gravityVector.
  apply vec_ext; simpl; ring.
Qed.

Lemma zero_delta_velocity (cfg : AircraftConfig) (ctl : ControlState)
    (r : Refs) :
  velocity (physics cfg ctl 0 r)
  = if isOnGround r then
      clampVelocity (Vec.add (velocity r) (frameDragVector cfg ctl r))
    else Vec.add (velocity r) (frameDragVector cfg ctl r).
Proof.
  rewrite physics_velocity, zero_delta_integrated.
  destruct (isOnGround r); [reflexivity |].
  destruct (Rltb 0.1 (frameSpeed cfg ctl r)); [| reflexivity].
  apply vec_ext; simpl; ring.
Qed.

Lemma zero_delta_quaternion (cfg : AircraftConfig) (ctl : ControlState)
    (r : Refs) :
  quaternion (physics cfg ctl 0 r) = quaternion r.
Proof.
  rewrite physics_quaternion.
  replace (pitchAmt cfg ctl (frameSpeed cfg ctl r) 0) with 0
    by (unfold pitchAmt; ring).
  replace (rollAmt cfg ctl (frameSpeed cfg ctl r) 0) with 0
    by (unfold rollAmt; ring).
  replace (yawAmt cfg ctl (isOnGround r) (frameSpeed cfg ctl r) 0) with 0
    by (unfold yawAmt; ring).
  now rewrite !setFromAxisAngle_zero, rotate_identity.
Qed.

Lemma zero_delta_position (cfg : AircraftConfig) (ctl : ControlState)
    (r : Refs) :
  position (physics cfg ctl 0 r)
  = if isOnGround r then Vec.setY (position r) 0.6 else position r.
Proof.
  rewrite physics_position.
  destruct (isOnGround r); apply vec_ext; simpl; ring.
Qed.

Lemma cruising_airborne : isOnGround cruising = false.
Proof. unfold isOnGround. apply Rleb_false. simpl. lra. Qed.

Lemma cruising_frameSpeed (cfg : AircraftConfig) :
  frameSpeed cfg neutral cruising = 1.
Proof.
  rewrite frame_speed.
  replace (braking neutral cruising) with false by reflexivity.
  apply length_along_x. lra.
Qed.

Lemma cruising_drag :
  frameDragVector trainer neutral cruising = mkVector3 (- 0.0015) 0 0.
Proof.
  unfold frameDragVector, dragVector. rewrite cruising_frameSpeed.
  replace (velocity cruising) with (mkVector3 1 0 0) by reflexivity.
  rewrite normalize_along_x by lra.
  unfold dragVal, DRAG_COEFFICIENT. apply vec_ext; simpl; lra.
Qed.

(** C1, as stated, fails: in level flight at speed 1 with the trainer, gear
    down and neutral controls, a frame with [delta = 0] takes 0.0015 off the
    velocity. *)
Lemma zero_delta_changes_velocity :
  ~ (velocity (physics trainer neutral 0 cruising) = velocity cruising
     /\ position (physics trainer neutral 0 cruising) = position cruising
     /\ quaternion (physics trainer neutral 0 cruising) = quaternion cruising).
Proof.
  intros (Hv & _).
  rewrite zero_delta_velocity, cruising_airborne, cruising_drag in Hv.
  apply (f_equal vx) in Hv. simpl in Hv. lra.
Qed.

(** C1, amended.  A frame with [delta = 0] leaves the orientation as it was;
    it leaves the position as it was except that on the ground [y] is set to
    0.6; thrust, gravity and lift add nothing to the velocity, which changes
    by the drag term alone and, on the ground, by the clamp and the 0.995
    damping.  An airborne aircraft with zero velocity is left as it was. *)
Theorem zero_delta_frame :
  forall (cfg : AircraftConfig) (ctl : ControlState) (r : Refs),
    quaternion (physics cfg ctl 0 r) = quaternion r
    /\ position (physics cfg ctl 0 r)
       = (if isOnGround r then Vec.setY (position r) 0.6 else position r)
    /\ velocity (physics cfg ctl 0 r)
       = (if isOnGround r then
            clampVelocity (Vec.add (velocity r) (frameDragVector cfg ctl r))
          else Vec.add (velocity r) (frameDragVector cfg ctl r))
    /\ (isOnGround r = false -> velocity r = Vec.zero ->
        velocity (physics cfg ctl 0 r) = velocity r
        /\ position (physics cfg ctl 0 r) = position r).
Proof.
  intros cfg ctl r.
  split; [apply zero_delta_quaternion |].
  split; [apply zero_delta_position |].
  split; [apply zero_delta_velocity |].
  intros Hair Hv.
  rewrite zero_delta_velocity, zero_delta_position, Hair.
  split; [| reflexivity].
  unfold frameDragVector. rewrite Hv, dragVector_zero.
  apply vec_ext; simpl; ring.
Qed.

Lemma zero_delta_frame_witness :
  (isOnGround hovering = false /\ velocity hovering = Vec.zero)
  /\ velocity (physics raptor pull 0 hovering) = velocity hovering
  /\ position (physics raptor pull 0 hovering) = position hovering.
Proof.
  assert (Hair : isOnGround hovering = false).
  { unfold isOnGround. apply Rleb_false. simpl. lra. }
  assert (Hv : velocity hovering = Vec.zero) by reflexivity.
  split; [split; assumption |].
  exact (proj2 (proj2 (proj2 (zero_delta_frame raptor pull hovering))) Hair Hv).
Defined.

(** ** Velocity integration *)

Lemma identity_axes (r : Refs) :
  quaternion r = Quat.identity ->
  forwardOf r = mkVector3 0 0 (-1)
  /\ upOf r = mkVector3 0 1 0
  /\ rightOf r = mkVector3 1 0 0.
Proof.
  intros Hq. unfold forwardOf, upOf, rightOf. rewrite Hq.
  repeat split; apply vec_ext; simpl; ring.
Qed.

Lemma neutral_is_neutral : neutralInput neutral.
Proof. repeat split; try reflexivity. repeat constructor. Qed.

(** C2, as stated, fails: in level flight at speed 1 the drag term added in a
    frame of 1/60 s is the whole [dragVector], not [dragVector / 60]. *)
Lemma drag_not_scaled_by_delta :
  integrated trainer neutral (1 / 60) cruising
  <> Vec.add
       (Vec.add
          (Vec.add
             (Vec.add (velocity cruising)
                (Vec.multiplyScalar
                   (frameThrustVector trainer neutral cruising) (1 / 60)))
             (gravityVector (1 / 60)))
          (frameLiftVector trainer neutral (1 / 60) cruising))
       (Vec.multiplyScalar (frameDragVector trainer neutral cruising) (1 / 60)).
Proof.
  intros H. apply (f_equal vx) in H.
  unfold integrated, integrateVelocity, frameLiftVector, liftVector,
    frameThrustVector in H.
  rewrite (neutral_thrust trainer neutral cruising neutral_is_neutral) in H.
  rewrite cruising_drag in H.
  destruct (identity_axes cruising eq_refl) as (_ & Hup & _).
  rewrite Hup in H. simpl in H. lra.
Qed.

(** C2, amended.  The velocity after integration is
    [velocity + (thrust + gravity + lift) * delta + drag], where none of the
    four vectors depends on [delta]: thrust is scaled by [delta] when added,
    gravity (per second [GRAVITY * 60]) and lift are scaled by [delta] when
    computed, and [dragVector] is added as it is. *)
Theorem velocity_integration_scaling :
  forall (cfg : AircraftConfig) (ctl : ControlState) (delta : R) (r : Refs),
    integrated cfg ctl delta r
    = Vec.add
        (Vec.add (velocity r)
           (Vec.multiplyScalar
              (Vec.add
                 (Vec.add (frameThrustVector cfg ctl r)
                    (mkVector3 0 (- GRAVITY * 60) 0))
                 (Vec.multiplyScalar (upOf r)
                    (effectiveLift cfg ctl (frameSpeed cfg ctl r))))
              delta))
        (frameDragVector cfg ctl r).
Proof.
  intros cfg ctl delta r.
  unfold integrated, integrateVelocity, frameLiftVector, liftVector,
    gravityVector.
  apply vec_ext; simpl; ring.
Qed.

(** ** Telemetry *)

Lemma hovering_frame :
  velocity (physics trainer neutral 1 hovering) = mkVector3 0 (- 4.8) 0
  /\ speed (physics trainer neutral 1 hovering) = 0.
Proof.
  assert (Hs : frameSpeed trainer neutral hovering = 0)
    by (apply rest_frameSpeed; reflexivity).
  split; [| now rewrite physics_speed].
  rewrite physics_velocity, Hs.
  replace (isOnGround hovering) with false
    by (symmetry; unfold isOnGround; apply Rleb_false; simpl; lra).
  rewrite Rltb_false by lra.
  unfold integrated, frameThrustVector, frameLiftVector, frameDragVector.
  rewrite (neutral_thrust trainer neutral hovering neutral_is_neutral), Hs.
  unfold liftVector. rewrite effectiveLift_zero.
  replace (velocity hovering) with Vec.zero by reflexivity.
  rewrite dragVector_zero.
  apply vec_ext; simpl; unfold GRAVITY; lra.
Qed.

(** C3, as stated, fails: after one second of free fall from rest the
    velocity has length 4.8, and the snapshot reports speed 0. *)
Lemma telemetry_speed_is_stale :
  fd_velocity (snd (useFrame noEuler trainer neutral 1 hovering))
  <> Vec.length (velocity (fst (useFrame noEuler trainer neutral 1 hovering))).
Proof.
  destruct hovering_frame as (Hv & Hs).
  change (speed (physics trainer neutral 1 hovering)
          <> Vec.length (velocity (physics trainer neutral 1 hovering))).
  rewrite Hv, Hs.
  intros H. symmetry in H.
  unfold Vec.length, Vec.lengthSq, Vec.dot in H. simpl in H.
  apply sqrt_eq_0 in H; lra.
Qed.

Lemma sinking_frame :
  velocity (physics trainer neutral (1 / 60) sinking) = Vec.zero
  /\ position (physics trainer neutral (1 / 60) sinking) = position sinking
  /\ quaternion (physics trainer neutral (1 / 60) sinking) = quaternion sinking
  /\ speed (physics trainer neutral (1 / 60) sinking) = 1.
Proof.
  assert (Hlen : Vec.length (mkVector3 0 (-1) 0) = 1).
  { unfold Vec.length, Vec.lengthSq, Vec.dot. simpl.
    replace (0 * 0 + -1 * -1 + 0 * 0) with 1 by ring. apply sqrt_1. }
  assert (Hs : frameSpeed trainer neutral sinking = 1).
  { rewrite frame_speed.
    replace (braking neutral sinking) with false by reflexivity.
    exact Hlen. }
  assert (Hg : isOnGround sinking = true).
  { unfold isOnGround. apply Rleb_true. simpl. lra. }
  assert (Hn : Vec.normalize (mkVector3 0 (-1) 0) = mkVector3 0 (-1) 0).
  { unfold Vec.normalize. rewrite Hlen.
    destruct (Req_dec_T 1 0) as [H0 | _]; [lra |].
    apply vec_ext; simpl; field. }
  assert (Hl : effectiveLift trainer neutral 1 = 0.5).
  { unfold effectiveLift, liftFactor, LIFT_COEFFICIENT, MAX_SPEED. simpl.
    rewrite Rmax_right; lra. }
  assert (Hv : velocity (physics trainer neutral (1 / 60) sinking) = Vec.zero).
  { rewrite physics_velocity, Hg.
    unfold integrated, integrateVelocity, frameThrustVector, frameLiftVector,
      frameDragVector, liftVector, dragVector.
    rewrite (neutral_thrust trainer neutral sinking neutral_is_neutral), Hs, Hl.
    replace (velocity sinking) with (mkVector3 0 (-1) 0) by reflexivity.
    rewrite Hn.
    destruct (identity_axes sinking eq_refl) as (Hfw & Hup & _).
    rewrite Hfw, Hup. unfold clampVelocity. simpl.
    match goal with
    | |- context [Rlt_dec ?a 0] =>
        destruct (Rlt_dec a 0) as [_ | Hge];
        [| exfalso; apply Hge; unfold GRAVITY, dragVal, DRAG_COEFFICIENT;
           simpl; lra]
    end.
    apply vec_ext; simpl; ring. }
  repeat split.
  - exact Hv.
  - rewrite physics_position, Hv, Hg. apply vec_ext; simpl; ring.
  - apply neutral_quaternion, neutral_is_neutral.
  - now rewrite physics_speed.
Qed.

(** Two frames that leave the same position, orientation and velocity, under
    the same controls, and report different speeds: the snapshot is not a
    function of the updated state and the controls. *)
Lemma telemetry_depends_on_previous_velocity :
  let a := useFrame noEuler trainer neutral (1 / 60) initialRefs in
  let b := useFrame noEuler trainer neutral (1 / 60) sinking in
  velocity (fst a) = velocity (fst b)
  /\ position (fst a) = position (fst b)
  /\ quaternion (fst a) = quaternion (fst b)
  /\ fd_velocity (snd a) = 0
  /\ fd_velocity (snd b) = 1.
Proof.
  destruct sinking_frame as (Hv & Hp & Hq & Hs).
  assert (Hrest : atRestOnGround initialRefs) by (repeat split; reflexivity).
  assert (Hd : 0 < 1 / 60) by lra.
  destruct (rest_frame trainer neutral (1 / 60) initialRefs
              neutral_is_neutral Hd Hrest) as ((Hv0 & _ & Hq0) & Hp0).
  cbv zeta. unfold useFrame. cbn [fst snd].
  rewrite Hv, Hp, Hq, Hv0, Hp0, Hq0.
  repeat split.
  - change (speed (physics trainer neutral (1 / 60) initialRefs) = 0).
    rewrite physics_speed. apply rest_frameSpeed. reflexivity.
  - change (speed (physics trainer neutral (1 / 60) sinking) = 1). exact Hs.
Qed.

(** C3, amended.  The snapshot reads the position, the orientation and the
    altitude of the updated cells and echoes the controls; its speed field
    is the frame's working speed, the length of the velocity the frame
    started with, times 0.95 when the brake branch ran. *)
Theorem telemetry_reads :
  forall (setFromQuaternion : Quaternion -> Euler) (cfg : AircraftConfig)
         (ctl : ControlState) (delta : R) (r : Refs),
    let r' := fst (useFrame setFromQuaternion cfg ctl delta r) in
    let fd := snd (useFrame setFromQuaternion cfg ctl delta r) in
    r' = physics cfg ctl delta r
    /\ fd_position fd = (vx (position r'), vy (position r'), vz (position r'))
    /\ fd_rotation fd = setFromQuaternion (quaternion r')
    /\ fd_altitude fd = vy (position r')
    /\ fd_velocity fd
       = (if braking ctl r then Vec.length (velocity r) * 0.95
          else Vec.length (velocity r))
    /\ fd_throttles fd = throttles ctl
    /\ fd_fuel fd = 100
    /\ fd_isGearDown fd = gear ctl
    /\ fd_flapsValue fd = flaps ctl
    /\ fd_brake fd = brake ctl
    /\ fd_pitchInput fd = pitch ctl
    /\ fd_rollInput fd = roll ctl
    /\ fd_yawInput fd = yaw ctl.
Proof.
  intros euler cfg ctl delta r r' fd. subst r' fd.
  repeat split; try reflexivity.
  change (speed (physics cfg ctl delta r)
          = (if braking ctl r then Vec.length (velocity r) * 0.95
             else Vec.length (velocity r))).
  rewrite physics_speed. apply frame_speed.
Qed.

(** ** Drag *)

Lemma vec_lengthSq_nonneg (v : Vector3) : 0 <= Vec.lengthSq v.
Proof. destruct v. unfold Vec.lengthSq, Vec.dot. simpl. nra. Qed.

Lemma vec_length_sq (v : Vector3) :
  Vec.length v * Vec.length v = Vec.lengthSq v.
Proof. apply sqrt_sqrt, vec_lengthSq_nonneg. Qed.

Lemma vec_length_pos (v : Vector3) : v <> Vec.zero -> 0 < Vec.length v.
Proof.
  intros Hne. apply sqrt_lt_R0.
  destruct (Rle_lt_dec (Vec.lengthSq v) 0) as [Hle | Hlt]; [| exact Hlt].
  exfalso. apply Hne. destruct v as [x y z].
  unfold Vec.lengthSq, Vec.dot in Hle. simpl in Hle.
  assert (x = 0) by nra. assert (y = 0) by nra. assert (z = 0) by nra.
  subst. reflexivity.
Qed.

(** Scaling by [- k] with [k >= 0] multiplies the length by [k]. *)
Lemma length_scale_neg (v : Vector3) (k : R) :
  0 <= k -> Vec.length (Vec.multiplyScalar v (- k)) = k * Vec.length v.
Proof.
  intros Hk. unfold Vec.length at 1.
  apply sqrt_lem_1.
  - apply vec_lengthSq_nonneg.
  - apply Rmult_le_pos; [exact Hk | apply sqrt_pos].
  - replace (k * Vec.length v * (k * Vec.length v))
      with (k * k * (Vec.length v * Vec.length v)) by ring.
    rewrite vec_length_sq. destruct v.
    unfold Vec.lengthSq, Vec.dot, Vec.multiplyScalar. simpl. ring.
Qed.

Lemma normalize_nonzero (v : Vector3) :
  v <> Vec.zero -> Vec.normalize v = Vec.multiplyScalar v (/ Vec.length v).
Proof.
  intros Hne. pose proof (vec_length_pos v Hne) as Hpos.
  unfold Vec.normalize, Vec.divideScalar.
  destruct (Req_dec_T (Vec.length v) 0) as [H0 | _]; [lra |].
  apply vec_ext; simpl; field; lra.
Qed.

(** With a positive drag multiplier and flaps not negative, [dragVal] is
    positive at every speed that is not zero. *)
Lemma dragVal_pos (cfg : AircraftConfig) (ctl : ControlState) (sp : R) :
  0 < dragMult cfg -> 0 <= flaps ctl -> sp <> 0 -> 0 < dragVal cfg ctl sp.
Proof.
  intros Hd Hf Hs. unfold dragVal, DRAG_COEFFICIENT.
  assert (Hsq : 0 < sp * sp) by nra.
  assert (H1 : 0 < sp * sp * 0.0005 * dragMult cfg).
  { apply Rmult_lt_0_compat; [| exact Hd]. lra. }
  destruct (gear ctl); lra.
Qed.

Lemma frameSpeed_pos (cfg : AircraftConfig) (ctl : ControlState) (r : Refs) :
  velocity r <> Vec.zero -> 0 < frameSpeed cfg ctl r.
Proof.
  intros Hne. pose proof (vec_length_pos _ Hne) as Hpos.
  rewrite frame_speed. destruct (braking ctl r); lra.
Qed.

(** The drag vector is the velocity times [- dragVal / |velocity|]. *)
Lemma drag_along_velocity (cfg : AircraftConfig) (ctl : ControlState)
    (r : Refs) :
  velocity r <> Vec.zero ->
  frameDragVector cfg ctl r
  = Vec.multiplyScalar (velocity r)
      (- (dragVal cfg ctl (frameSpeed cfg ctl r) / Vec.length (velocity r))).
Proof.
  intros Hne. pose proof (vec_length_pos _ Hne) as Hpos.
  unfold frameDragVector, dragVector. rewrite normalize_nonzero by exact Hne.
  apply vec_ext; simpl; field; lra.
Qed.

(** C6.  When the velocity is not zero (with [dragMult > 0] and the flaps
    setting not negative) the drag vector is a negative multiple of the
    velocity, and the dot product of the two normalised vectors is -1; when
    the velocity is zero the drag vector is the zero vector, [normalize]
    dividing by 1 instead of by the length. *)
Theorem drag_direction :
  forall (cfg : AircraftConfig) (ctl : ControlState) (r : Refs),
    (velocity r <> Vec.zero -> 0 < dragMult cfg -> 0 <= flaps ctl ->
     (exists k : R,
         0 < k /\ frameDragVector cfg ctl r
                  = Vec.multiplyScalar (velocity r) (- k))
     /\ Vec.dot (Vec.normalize (velocity r))
          (Vec.normalize (frameDragVector cfg ctl r)) = -1)
    /\ (velocity r = Vec.zero -> frameDragVector cfg ctl r = Vec.zero).
Proof.
  intros cfg ctl r. split.
  - intros Hne Hd Hf.
    pose proof (vec_length_pos _ Hne) as Hpos.
    pose proof (frameSpeed_pos cfg ctl r Hne) as Hsp.
    assert (Hdv : 0 < dragVal cfg ctl (frameSpeed cfg ctl r))
      by (apply dragVal_pos; [assumption | assumption | lra]).
    set (dv := dragVal cfg ctl (frameSpeed cfg ctl r)) in *.
    set (len := Vec.length (velocity r)) in *.
    assert (Hk : 0 < dv / len) by (apply Rdiv_lt_0_compat; assumption).
    pose proof (drag_along_velocity cfg ctl r Hne) as Hdrag.
    fold dv len in Hdrag.
    split; [exists (dv / len); split; assumption |].
    assert (Hlen : Vec.length (frameDragVector cfg ctl r) = dv).
    { rewrite Hdrag, length_scale_neg by lra. fold len. field. lra. }
    unfold Vec.normalize at 2. rewrite Hlen.
    destruct (Req_dec_T dv 0) as [H0 | _]; [lra |].
    rewrite normalize_nonzero by exact Hne. fold len. rewrite Hdrag.
    pose proof (vec_length_sq (velocity r)) as Hsq. fold len in Hsq.
    unfold Vec.lengthSq, Vec.dot in Hsq.
    unfold Vec.dot, Vec.divideScalar. simpl.
    set (x := vx (velocity r)) in *. set (y := vy (velocity r)) in *.
    set (z := vz (velocity r)) in *.
    replace (x * / len * (x * - (dv / len) * (1 / dv))
             + y * / len * (y * - (dv / len) * (1 / dv))
             + z * / len * (z * - (dv / len) * (1 / dv)))
      with (- ((x * x + y * y + z * z) / (len * len))) by (field; lra).
    rewrite <- Hsq. field. lra.
  - intros Hv. unfold frameDragVector. rewrite Hv. apply dragVector_zero.
Qed.

Lemma cruising_moves : velocity cruising <> Vec.zero.
Proof. intros H. apply (f_equal vx) in H. simpl in H. lra. Qed.

Lemma drag_direction_witness :
  (velocity cruising <> Vec.zero /\ 0 < dragMult trainer /\ 0 <= flaps neutral)
  /\ Vec.dot (Vec.normalize (velocity cruising))
       (Vec.normalize (frameDragVector trainer neutral cruising)) = -1
  /\ velocity hovering = Vec.zero
  /\ frameDragVector trainer neutral hovering = Vec.zero.
Proof.
  assert (Hd : 0 < dragMult trainer) by (simpl; lra).
  assert (Hf : 0 <= flaps neutral) by (simpl; lra).
  split; [repeat split; [exact cruising_moves | exact Hd | exact Hf] |].
  split.
  - exact (proj2 (proj1 (drag_direction trainer neutral cruising)
                    cruising_moves Hd Hf)).
  - split; [reflexivity |].
    exact (proj2 (drag_direction trainer neutral hovering) eq_refl).
Defined.

(** ** Ground contact *)

Lemma clampVelocity_components (v : Vector3) :
  vx (clampVelocity v) = vx v * 0.995
  /\ vz (clampVelocity v) = vz v * 0.995
  /\ (vy v < 0 -> vy (clampVelocity v) = 0)
  /\ (0 <= vy v -> vy (clampVelocity v) = vy v * 0.995).
Proof.
  unfold clampVelocity.
  destruct (Rlt_dec (vy v) 0) as [Hneg | Hpos]; simpl;
    repeat split; try reflexivity; intros; try lra.
Qed.

(** C9.  When the frame starts on the ground ([position.y <= 0.6]) the
    velocity it leaves is the integrated velocity with a negative vertical
    component replaced by zero, all three components then multiplied by
    0.995: a vertical component that is not negative is only damped.  The
    position is then advanced from [y = 0.6] with that velocity, so with a
    positive vertical component and a positive [delta] the frame ends above
    the ground. *)
Theorem ground_clamp_keeps_upward :
  forall (cfg : AircraftConfig) (ctl : ControlState) (delta : R) (r : Refs),
    vy (position r) <= 0.6 ->
    let vi := integrated cfg ctl delta r in
    let r' := physics cfg ctl delta r in
    vx (velocity r') = vx vi * 0.995
    /\ vz (velocity r') = vz vi * 0.995
    /\ (vy vi < 0 -> vy (velocity r') = 0)
    /\ (0 <= vy vi -> vy (velocity r') = vy vi * 0.995)
    /\ vy (position r') = 0.6 + vy (velocity r') * (delta * 60)
    /\ (0 < vy vi -> 0 < delta -> 0.6 < vy (position r')).
Proof.
  intros cfg ctl delta r Hy vi r'. subst r'.
  assert (Hg : isOnGround r = true) by (apply Rleb_true; exact Hy).
  assert (Hp : vy (position (physics cfg ctl delta r))
               = 0.6 + vy (velocity (physics cfg ctl delta r)) * (delta * 60))
    by (rewrite physics_position, Hg; reflexivity).
  assert (Hv : velocity (physics cfg ctl delta r) = clampVelocity vi)
    by (rewrite physics_velocity, Hg; reflexivity).
  rewrite Hp, Hv.
  destruct (clampVelocity_components vi) as (Hx & Hz & Hneg & Hpos).
  repeat split; try assumption.
  intros Hup Hd. rewrite Hpos by lra.
  assert (0 < vy vi * 0.995 * (delta * 60)); [| lra].
  apply Rmult_lt_0_compat; lra.
Qed.

Lemma effectiveLift_trainer_4 : effectiveLift trainer neutral 4 = 8.
Proof.
  unfold effectiveLift, liftFactor, LIFT_COEFFICIENT, MAX_SPEED. simpl.
  rewrite Rmax_right; lra.
Qed.

Lemma rolling_frameSpeed (cfg : AircraftConfig) :
  frameSpeed cfg neutral rolling = 4.
Proof.
  rewrite frame_speed.
  replace (braking neutral rolling) with false by reflexivity.
  apply length_along_x. lra.
Qed.

(** At speed 4 on the runway the trainer's lift exceeds gravity. *)
Lemma rolling_lifts_off :
  0 < vy (integrated trainer neutral (1 / 60) rolling).
Proof.
  unfold integrated, integrateVelocity, frameThrustVector, frameLiftVector,
    frameDragVector, liftVector, dragVector.
  rewrite (neutral_thrust trainer neutral rolling neutral_is_neutral).
  rewrite rolling_frameSpeed, effectiveLift_trainer_4.
  replace (velocity rolling) with (mkVector3 4 0 0) by reflexivity.
  rewrite normalize_along_x by lra.
  destruct (identity_axes rolling eq_refl) as (_ & Hup & _). rewrite Hup.
  simpl. unfold GRAVITY. lra.
Qed.

Lemma ground_clamp_keeps_upward_witness :
  (vy (position rolling) <= 0.6
   /\ 0 < vy (integrated trainer neutral (1 / 60) rolling)
   /\ 0 < 1 / 60)
  /\ 0.6 < vy (position (physics trainer neutral (1 / 60) rolling)).
Proof.
  assert (Hy : vy (position rolling) <= 0.6) by (simpl; lra).
  assert (Hd : 0 < 1 / 60) by lra.
  split; [repeat split; [exact Hy | exact rolling_lifts_off | exact Hd] |].
  exact (proj2 (proj2 (proj2 (proj2 (proj2
           (ground_clamp_keeps_upward trainer neutral (1 / 60) rolling Hy)))))
           rolling_lifts_off Hd).
Defined.

(** ** The brake branch *)

Lemma braking_true (ctl : ControlState) (r : Refs) :
  brake ctl = true -> vy (position r) < 1.0 -> braking ctl r = true.
Proof.
  intros Hb Hy. unfold braking. rewrite Hb. simpl. now apply Rltb_true.
Qed.

(** C10.  With the brake set and [position.y < 1.0] the branch sets
    [thrustVal] to zero and multiplies the [speed] cell by 0.95; the
    velocity, position and orientation cells are as before.  The frame then
    integrates the unscaled velocity vector with no thrust term, and the
    scaled speed is what lift, drag, control authority and the telemetry
    read. *)
Theorem brake_scales_speed_only :
  forall (cfg : AircraftConfig) (ctl : ControlState) (delta : R) (r : Refs),
    brake ctl = true -> vy (position r) < 1.0 ->
    let sp := Vec.length (velocity r) * 0.95 in
    (forall (thrustVal : R) (r1 : Refs),
        position r1 = position r ->
        brakeBranch ctl thrustVal r1 = (0, setSpeed r1 (speed r1 * 0.95)))
    /\ frameThrustVal cfg ctl r = 0
    /\ frameSpeed cfg ctl r = sp
    /\ velocity (snd (afterBrake cfg ctl r)) = velocity r
    /\ position (snd (afterBrake cfg ctl r)) = position r
    /\ quaternion (snd (afterBrake cfg ctl r)) = quaternion r
    /\ integrated cfg ctl delta r
       = Vec.add
           (Vec.add (Vec.add (velocity r) (gravityVector delta))
              (liftVector cfg ctl (upOf r) sp delta))
           (dragVector cfg ctl (velocity r) sp)
    /\ quaternion (physics cfg ctl delta r)
       = rotate (quaternion r)
           (Quat.setFromAxisAngle (rightOf r) (pitchAmt cfg ctl sp delta))
           (Quat.setFromAxisAngle (upOf r)
              (yawAmt cfg ctl (isOnGround r) sp delta))
           (Quat.setFromAxisAngle (forwardOf r) (rollAmt cfg ctl sp delta))
    /\ speed (physics cfg ctl delta r) = sp.
Proof.
  intros cfg ctl delta r Hb Hy sp.
  pose proof (braking_true ctl r Hb Hy) as Hbr.
  assert (Hsp : frameSpeed cfg ctl r = sp)
    by (rewrite frame_speed, Hbr; reflexivity).
  assert (Htv : frameThrustVal cfg ctl r = 0).
  { unfold frameThrustVal, afterBrake, brakeBranch.
    replace (braking ctl (readSpeed r)) with (braking ctl r) by reflexivity.
    now rewrite Hbr. }
  destruct (afterBrake_keeps cfg ctl r) as (Hv & Hp & Hq).
  split.
  { intros thrustVal r1 Hr1. unfold brakeBranch.
    replace (braking ctl r1) with true; [reflexivity |].
    symmetry. apply braking_true; [exact Hb | now rewrite Hr1]. }
  repeat split; try assumption.
  - unfold integrated, integrateVelocity, frameThrustVector, frameLiftVector,
      frameDragVector.
    rewrite Htv, Hsp. apply vec_ext; simpl; ring.
  - rewrite physics_quaternion, Hsp. reflexivity.
  - rewrite physics_speed. exact Hsp.
Qed.

Lemma brake_scales_speed_only_witness :
  (brake parked = true /\ vy (position rolling) < 1.0)
  /\ frameThrustVal trainer parked rolling = 0
  /\ frameSpeed trainer parked rolling = Vec.length (velocity rolling) * 0.95
  /\ velocity (snd (afterBrake trainer parked rolling)) = velocity rolling.
Proof.
  assert (Hb : brake parked = true) by reflexivity.
  assert (Hy : vy (position rolling) < 1.0) by (simpl; lra).
  split; [split; assumption |].
  pose proof (brake_scales_speed_only trainer parked (1 / 60) rolling Hb Hy)
    as (_ & Htv & Hsp & Hv & _).
  repeat split; assumption.
Defined.

(** * Further properties of the frame callback *)

(** ** The throttle loop *)

Lemma throttleLoop_firstn (cfg : AircraftConfig) (vals : list R) :
  forall (i : nat) (acc : R * R),
    throttleLoop cfg i (firstn (engineCount cfg - i) vals) acc
    = throttleLoop cfg i vals acc.
Proof.
  induction vals as [| val rest IH]; intros i acc.
  - now rewrite firstn_nil.
  - destruct (engineCount cfg - i)%nat as [| m] eqn:Hm.
    + simpl firstn. cbn [throttleLoop]. symmetry.
      assert (Hle : (engineCount cfg <= i)%nat) by (apply Nat.sub_0_le; exact Hm).
      change (throttleLoop cfg i (val :: rest) acc = acc).
      now apply throttleLoop_past_engines.
    + simpl.
      replace m with (engineCount cfg - S i)%nat
        by (rewrite Nat.sub_succ_r, Hm; reflexivity).
      apply IH.
Qed.

(** X1.  Throttle entries at index [engineCount] and beyond count for
    nothing: the total thrust, the average throttle and the yaw moment are
    those of the first [engineCount] entries. *)
Theorem throttles_past_engines_ignored :
  forall (cfg : AircraftConfig) (ctl ctl' : ControlState),
    throttles ctl' = firstn (engineCount cfg) (throttles ctl) ->
    totalThrustPercent cfg ctl' = totalThrustPercent cfg ctl
    /\ avgThrottle cfg ctl' = avgThrottle cfg ctl
    /\ yawMoment cfg ctl' = yawMoment cfg ctl.
Proof.
  intros cfg ctl ctl' Hthr.
  assert (Hloop : throttleLoop cfg 0 (throttles ctl') (0, 0)
                  = throttleLoop cfg 0 (throttles ctl) (0, 0)).
  { rewrite Hthr. rewrite <- (throttleLoop_firstn cfg (throttles ctl) 0).
    now rewrite Nat.sub_0_r. }
  unfold avgThrottle, totalThrustPercent, yawMoment. rewrite Hloop.
  repeat split; reflexivity.
Qed.

Lemma throttles_past_engines_ignored_witness :
  throttles (mkControlState 0 0 0 [30; 70] false 0 true)
  = firstn (engineCount raptor)
      (throttles (mkControlState 0 0 0 [30; 70; 55; 90] false 0 true))
  /\ yawMoment raptor (mkControlState 0 0 0 [30; 70] false 0 true)
     = yawMoment raptor (mkControlState 0 0 0 [30; 70; 55; 90] false 0 true).
Proof.
  split; [reflexivity |].
  exact (proj2 (proj2 (throttles_past_engines_ignored raptor
           (mkControlState 0 0 0 [30; 70; 55; 90] false 0 true)
           (mkControlState 0 0 0 [30; 70] false 0 true) eq_refl))).
Defined.

Lemma throttleLoop_total_bounds (cfg : AircraftConfig) (vals : list R) :
  throttlesInRange vals ->
  forall (i : nat) (acc : R * R),
    fst acc <= fst (throttleLoop cfg i vals acc)
    <= fst acc + 100 * INR (engineCount cfg - i).
Proof.
  induction 1 as [| val rest Hval _ IH]; intros i acc; simpl.
  - pose proof (pos_INR (engineCount cfg - i)). lra.
  - specialize (IH (S i) (throttleBody cfg i val acc)).
    unfold throttleBody in *.
    destruct (engineCount cfg <=? i)%nat eqn:Hle.
    + apply Nat.leb_le in Hle.
      replace (engineCount cfg - S i)%nat with 0%nat in IH by lia.
      replace (engineCount cfg - i)%nat with 0%nat by lia.
      exact IH.
    + apply Nat.leb_gt in Hle.
      replace (engineCount cfg - i)%nat with (S (engineCount cfg - S i)) by lia.
      rewrite S_INR. simpl fst in IH. lra.
Qed.

(** X2.  With every throttle in [0,100] the average throttle is in [0,100],
    also when the list is shorter than [engineCount] (a missing engine counts
    as zero) or longer; with [thrustMult] not negative the thrust the frame
    applies is between 0 and [MAX_THRUST * thrustMult]. *)
Theorem thrust_bounds :
  forall (cfg : AircraftConfig) (ctl : ControlState) (r : Refs),
    throttlesInRange (throttles ctl) ->
    0 <= thrustMult cfg ->
    0 <= avgThrottle cfg ctl <= 100
    /\ 0 <= frameThrustVal cfg ctl r <= MAX_THRUST * thrustMult cfg.
Proof.
  intros cfg ctl r Hrange Hmult.
  pose proof (throttleLoop_total_bounds cfg _ Hrange 0 (0, 0)) as Htot.
  simpl fst in Htot. rewrite Nat.sub_0_r in Htot.
  fold (totalThrustPercent cfg ctl) in Htot.
  set (n := INR (engineCount cfg)) in *.
  assert (Hn : 0 <= n) by apply pos_INR.
  assert (Hmax : 1 <= Rmax 1 n) by apply Rmax_l.
  assert (Hmaxn : n <= Rmax 1 n) by apply Rmax_r.
  assert (Havg : 0 <= avgThrottle cfg ctl <= 100).
  { unfold avgThrottle. fold n. split.
    - apply Rmult_le_pos; [lra |].
      apply Rlt_le, Rinv_0_lt_compat. lra.
    - apply Rmult_le_reg_r with (Rmax 1 n); [lra |].
      unfold Rdiv. rewrite Rmult_assoc, Rinv_l by lra. lra. }
  split; [exact Havg |].
  unfold frameThrustVal, afterBrake, brakeBranch, MAX_THRUST.
  destruct (braking ctl (readSpeed r)); simpl.
  - split; [lra |]. apply Rmult_le_pos; lra.
  - unfold fullThrustVal, MAX_THRUST.
    set (a := avgThrottle cfg ctl) in *. set (m := thrustMult cfg) in *.
    split.
    + apply Rmult_le_pos; [| exact Hmult]. lra.
    + apply Rmult_le_compat_r; [exact Hmult |]. lra.
Qed.

Lemma thrust_bounds_witness :
  (throttlesInRange (throttles pull) /\ 0 <= thrustMult raptor)
  /\ 0 <= avgThrottle raptor pull <= 100
  /\ 0 <= frameThrustVal raptor pull cruising <= MAX_THRUST * thrustMult raptor.
Proof.
  assert (Hr : throttlesInRange (throttles pull))
    by (repeat constructor; simpl; lra).
  assert (Hm : 0 <= thrustMult raptor) by (simpl; lra).
  split; [split; assumption |].
  exact (thrust_bounds raptor pull cruising Hr Hm).
Defined.

(** ** The side coefficient and the yaw moment *)

Lemma side_mirror (cfg : AircraftConfig) (i : nat) :
  (2 <= engineCount cfg)%nat -> (i < engineCount cfg)%nat ->
  side cfg (engineCount cfg - 1 - i) = - side cfg i.
Proof.
  intros Hn Hi. unfold side.
  assert (Hd : 1 <= INR (engineCount cfg) - 1).
  { apply le_INR in Hn. simpl in Hn. lra. }
  rewrite !minus_INR by lia. simpl. field. lra.
Qed.

(** X3.  On a vehicle with two engines or more the side coefficient of an
    engine is in [-1,1], it is -1 for the first engine and 1 for the last,
    and mirrored engines have opposite coefficients. *)
Theorem side_range :
  forall (cfg : AircraftConfig) (i : nat),
    (2 <= engineCount cfg)%nat -> (i < engineCount cfg)%nat ->
    -1 <= side cfg i <= 1
    /\ side cfg 0 = -1
    /\ side cfg (engineCount cfg - 1) = 1
    /\ side cfg (engineCount cfg - 1 - i) = - side cfg i.
Proof.
  intros cfg i Hn Hi. unfold side.
  assert (Hd : 1 <= INR (engineCount cfg) - 1).
  { apply le_INR in Hn. simpl in Hn. lra. }
  assert (Hi' : 0 <= INR i <= INR (engineCount cfg) - 1).
  { split; [apply pos_INR |].
    assert (Hle : (S i <= engineCount cfg)%nat) by lia.
    apply le_INR in Hle. rewrite S_INR in Hle. lra. }
  set (d := INR (engineCount cfg) - 1) in *.
  assert (Hlast : INR (engineCount cfg - 1) = d).
  { unfold d. rewrite minus_INR by lia. simpl. ring. }
  assert (Hmirror : INR (engineCount cfg - 1 - i) = d - INR i).
  { rewrite minus_INR by lia. rewrite Hlast. ring. }
  assert (Hq : 0 <= INR i / d <= 1).
  { split.
    - apply Rmult_le_pos; [lra |]. apply Rlt_le, Rinv_0_lt_compat. lra.
    - apply Rmult_le_reg_r with d; [lra |].
      unfold Rdiv. rewrite Rmult_assoc, Rinv_l by lra. lra. }
  repeat split; try lra.
  - simpl. unfold Rdiv. lra.
  - rewrite Hlast. field. lra.
  - rewrite Hmirror. field. lra.
Qed.

Lemma side_range_witness :
  ((2 <= engineCount raptor)%nat /\ (1 < engineCount raptor)%nat)
  /\ -1 <= side raptor 1 <= 1.
Proof.
  assert (Hn : (2 <= engineCount raptor)%nat) by (simpl; lia).
  assert (Hi : (1 < engineCount raptor)%nat) by (simpl; lia).
  split; [split; assumption |].
  exact (proj1 (side_range raptor 1 Hn Hi)).
Defined.

(** The loop below [engineCount], on a vehicle with more than one engine. *)
Lemma throttleLoop_closed_form (cfg : AircraftConfig) (vals : list R) :
  (1 < engineCount cfg)%nat ->
  forall (i : nat) (acc : R * R),
    (i + length vals <= engineCount cfg)%nat ->
    throttleLoop cfg i vals acc
    = (fst acc + throttleSum vals, snd acc + sideSum cfg i vals).
Proof.
  intros Hn.
  induction vals as [| val rest IH]; intros i acc Hlen; simpl in *.
  - destruct acc. simpl. f_equal; ring.
  - rewrite IH by lia. unfold throttleBody.
    replace (engineCount cfg <=? i)%nat with false
      by (symmetry; apply Nat.leb_gt; lia).
    replace (1 <? engineCount cfg)%nat with true
      by (symmetry; apply Nat.ltb_lt; exact Hn).
    simpl. f_equal; ring.
Qed.

Lemma throttleSum_app (l : list R) (x : R) :
  throttleSum (l ++ [x]) = throttleSum l + x.
Proof. induction l as [| a l IH]; simpl; [ring | rewrite IH; ring]. Qed.

Lemma throttleSum_rev (l : list R) : throttleSum (rev l) = throttleSum l.
Proof.
  induction l as [| a l IH]; simpl; [reflexivity |].
  rewrite throttleSum_app, IH. ring.
Qed.

Lemma sideSum_app (cfg : AircraftConfig) (l : list R) (x : R) :
  forall i : nat,
    sideSum cfg i (l ++ [x])
    = sideSum cfg i l + side cfg (i + length l) * x.
Proof.
  induction l as [| a l IH]; intros i; simpl.
  - rewrite Nat.add_0_r. ring.
  - rewrite IH. replace (S i + length l)%nat with (i + S (length l))%nat by lia.
    ring.
Qed.

Lemma sideSum_rev (cfg : AircraftConfig) (vals : list R) :
  (2 <= engineCount cfg)%nat ->
  forall i : nat,
    (i + length vals <= engineCount cfg)%nat ->
    sideSum cfg (engineCount cfg - i - length vals) (rev vals)
    = - sideSum cfg i vals.
Proof.
  intros Hn.
  induction vals as [| val rest IH]; intros i Hlen; simpl in *.
  - ring.
  - rewrite sideSum_app, length_rev.
    replace (engineCount cfg - i - S (length rest))%nat
      with (engineCount cfg - S i - length rest)%nat by lia.
    rewrite IH by lia.
    replace (engineCount cfg - S i - length rest + length rest)%nat
      with (engineCount cfg - 1 - i)%nat by lia.
    rewrite (side_mirror cfg i Hn) by lia. ring.
Qed.

(** X4.  With one throttle per engine on a vehicle of two engines or more,
    handing the throttles to the engines in the reverse order negates the yaw
    moment and keeps the total thrust. *)
Theorem yawMoment_mirror :
  forall (cfg : AircraftConfig) (ctl ctl' : ControlState),
    (2 <= engineCount cfg)%nat ->
    length (throttles ctl) = engineCount cfg ->
    throttles ctl' = rev (throttles ctl) ->
    yawMoment cfg ctl' = - yawMoment cfg ctl
    /\ totalThrustPercent cfg ctl' = totalThrustPercent cfg ctl.
Proof.
  intros cfg ctl ctl' Hn Hlen Hrev.
  unfold yawMoment, totalThrustPercent. rewrite Hrev.
  rewrite !throttleLoop_closed_form by (rewrite ?length_rev; simpl; lia).
  simpl. rewrite throttleSum_rev. split; [| reflexivity].
  pose proof (sideSum_rev cfg (throttles ctl) Hn 0) as Hs.
  rewrite Hlen in Hs. simpl in Hs.
  replace (engineCount cfg - 0 - engineCount cfg)%nat with 0%nat in Hs by lia.
  rewrite Hs by lia. ring.
Qed.

Lemma yawMoment_mirror_witness :
  ((2 <= engineCount titan)%nat
   /\ length (throttles staggered) = engineCount titan
   /\ throttles (mkControlState 0 0 0 [40; 30; 20; 10] false 0 true)
      = rev (throttles staggered))
  /\ yawMoment titan (mkControlState 0 0 0 [40; 30; 20; 10] false 0 true)
     = - yawMoment titan staggered.
Proof.
  assert (Hn : (2 <= engineCount titan)%nat) by (simpl; lia).
  split; [split; [exact Hn | split; reflexivity] |].
  exact (proj1 (yawMoment_mirror titan staggered
                  (mkControlState 0 0 0 [40; 30; 20; 10] false 0 true)
                  Hn eq_refl eq_refl)).
Defined.

(** X5.  When the engines of the vehicle all receive the same throttle the
    yaw moment is zero, for every engine count: the master throttle alone
    never turns the aircraft. *)
Theorem equal_throttles_no_yaw :
  forall (cfg : AircraftConfig) (ctl : ControlState) (t : R),
    firstn (engineCount cfg) (throttles ctl) = repeat t (engineCount cfg) ->
    yawMoment cfg ctl = 0.
Proof.
  intros cfg ctl t Heq. unfold yawMoment.
  rewrite <- (throttleLoop_firstn cfg (throttles ctl) 0), Nat.sub_0_r, Heq.
  destruct (Nat.le_gt_cases 2 (engineCount cfg)) as [Hn | Hn].
  - rewrite throttleLoop_closed_form by (rewrite ?repeat_length; lia).
    simpl.
    pose proof (sideSum_rev cfg (repeat t (engineCount cfg)) Hn 0) as Hs.
    rewrite rev_repeat, repeat_length in Hs.
    replace (engineCount cfg - 0 - engineCount cfg)%nat with 0%nat in Hs by lia.
    specialize (Hs ltac:(lia)). lra.
  - destruct (Nat.eq_dec (engineCount cfg) 1) as [Hone | Hnot].
    + now rewrite throttleLoop_single_engine.
    + replace (engineCount cfg) with 0%nat by lia. reflexivity.
Qed.

Lemma equal_throttles_no_yaw_witness :
  firstn (engineCount raptor) (throttles level60) = repeat 60 (engineCount raptor)
  /\ yawMoment raptor level60 = 0.
Proof.
  split; [reflexivity |].
  exact (equal_throttles_no_yaw raptor level60 60 eq_refl).
Defined.

(** ** The brake *)

Lemma braked_thrust (cfg : AircraftConfig) (ctl : ControlState) (r : Refs) :
  braking ctl r = true -> frameThrustVal cfg ctl r = 0.
Proof.
  intros Hbr. unfold frameThrustVal, afterBrake, brakeBranch.
  replace (braking ctl (readSpeed r)) with (braking ctl r) by reflexivity.
  now rewrite Hbr.
Qed.

Lemma effectiveLift_flaps (cfg : AircraftConfig) (ctl ctl' : ControlState)
    (sp : R) :
  flaps ctl = flaps ctl' -> effectiveLift cfg ctl sp = effectiveLift cfg ctl' sp.
Proof. intros Hf. unfold effectiveLift, liftFactor. now rewrite Hf. Qed.

Lemma dragVal_gear_flaps (cfg : AircraftConfig) (ctl ctl' : ControlState)
    (sp : R) :
  gear ctl = gear ctl' -> flaps ctl = flaps ctl' ->
  dragVal cfg ctl sp = dragVal cfg ctl' sp.
Proof. intros Hg Hf. unfold dragVal. now rewrite Hg, Hf. Qed.

(** X6.  With the brake set and [position.y < 1.0] the velocity and the
    position a frame leaves depend on the controls through gear and flaps
    only: no throttle setting and no stick or rudder input changes them. *)
Theorem braked_frame_ignores_throttle :
  forall (cfg : AircraftConfig) (ctl ctl' : ControlState) (delta : R)
         (r : Refs),
    brake ctl = true -> brake ctl' = true -> vy (position r) < 1.0 ->
    gear ctl = gear ctl' -> flaps ctl = flaps ctl' ->
    velocity (physics cfg ctl delta r) = velocity (physics cfg ctl' delta r)
    /\ position (physics cfg ctl delta r) = position (physics cfg ctl' delta r).
Proof.
  intros cfg ctl ctl' delta r Hb Hb' Hy Hg Hf.
  pose proof (braking_true ctl r Hb Hy) as Hbr.
  pose proof (braking_true ctl' r Hb' Hy) as Hbr'.
  assert (Hsp : frameSpeed cfg ctl r = frameSpeed cfg ctl' r)
    by (rewrite !frame_speed, Hbr, Hbr'; reflexivity).
  assert (Hi : integrated cfg ctl delta r = integrated cfg ctl' delta r).
  { unfold integrated, frameThrustVector, frameLiftVector, frameDragVector,
      liftVector, dragVector.
    rewrite (braked_thrust cfg ctl r Hbr), (braked_thrust cfg ctl' r Hbr').
    rewrite Hsp.
    rewrite (effectiveLift_flaps cfg ctl ctl' _ Hf).
    rewrite (dragVal_gear_flaps cfg ctl ctl' _ Hg Hf). reflexivity. }
  assert (Hv : velocity (physics cfg ctl delta r)
               = velocity (physics cfg ctl' delta r))
    by (rewrite !physics_velocity, Hi, Hsp; reflexivity).
  split; [exact Hv |].
  rewrite !physics_position, Hv. reflexivity.
Qed.

Lemma braked_frame_ignores_throttle_witness :
  (brake bank = true /\ brake held = true /\ vy (position rolling) < 1.0
   /\ gear bank = gear held /\ flaps bank = flaps held)
  /\ velocity (physics raptor bank (1 / 60) rolling)
     = velocity (physics raptor held (1 / 60) rolling)
  /\ position (physics raptor bank (1 / 60) rolling)
     = position (physics raptor held (1 / 60) rolling).
Proof.
  assert (Hy : vy (position rolling) < 1.0) by (simpl; lra).
  split.
  - split; [reflexivity |]. split; [reflexivity |]. split; [exact Hy |].
    split; reflexivity.
  - exact (braked_frame_ignores_throttle raptor bank held (1 / 60) rolling
             eq_refl eq_refl Hy eq_refl eq_refl).
Defined.

Lemma drag_length (cfg : AircraftConfig) (ctl : ControlState) (r : Refs) :
  velocity r <> Vec.zero ->
  0 <= dragVal cfg ctl (frameSpeed cfg ctl r) ->
  Vec.length (frameDragVector cfg ctl r)
  = dragVal cfg ctl (frameSpeed cfg ctl r).
Proof.
  intros Hne Hdv. pose proof (vec_length_pos _ Hne) as Hpos.
  rewrite drag_along_velocity by exact Hne.
  rewrite length_scale_neg.
  - field. lra.
  - apply Rmult_le_pos; [exact Hdv |].
    apply Rlt_le, Rinv_0_lt_compat, Hpos.
Qed.

Lemma dragVal_nonneg (cfg : AircraftConfig) (ctl : ControlState) (sp : R) :
  0 <= dragMult cfg -> 0 <= flaps ctl -> 0 <= dragVal cfg ctl sp.
Proof.
  intros Hd Hf. unfold dragVal, DRAG_COEFFICIENT.
  assert (Hsq : 0 <= sp * sp) by nra.
  assert (H1 : 0 <= sp * sp * 0.0005 * dragMult cfg).
  { apply Rmult_le_pos; [lra | exact Hd]. }
  destruct (gear ctl); lra.
Qed.

(** X7.  Setting the brake never adds drag: with the same gear and flaps,
    the drag vector of a braked frame (brake set, [position.y < 1.0]) is no
    longer than that of the unbraked frame from the same cells, since the
    brake only scales the speed that [dragVal] reads. *)
Theorem brake_never_adds_drag :
  forall (cfg : AircraftConfig) (ctl ctl' : ControlState) (r : Refs),
    brake ctl = true -> vy (position r) < 1.0 -> brake ctl' = false ->
    gear ctl = gear ctl' -> flaps ctl = flaps ctl' ->
    0 <= dragMult cfg -> 0 <= flaps ctl ->
    Vec.length (frameDragVector cfg ctl r)
    <= Vec.length (frameDragVector cfg ctl' r).
Proof.
  intros cfg ctl ctl' r Hb Hy Hb' Hg Hf Hd Hfl.
  destruct (Req_dec_T (Vec.lengthSq (velocity r)) 0) as [Hz | Hnz].
  - assert (Hv : velocity r = Vec.zero).
    { destruct (velocity r) as [x y z].
      unfold Vec.lengthSq, Vec.dot in Hz. simpl in Hz.
      assert (x = 0) by nra. assert (y = 0) by nra. assert (z = 0) by nra.
      subst. reflexivity. }
    unfold frameDragVector. rewrite Hv, !dragVector_zero. lra.
  - assert (Hne : velocity r <> Vec.zero).
    { intros Hv. apply Hnz. rewrite Hv.
      unfold Vec.lengthSq, Vec.dot. simpl. ring. }
    assert (Hfl' : 0 <= flaps ctl') by (rewrite <- Hf; exact Hfl).
    rewrite !drag_length
      by (try exact Hne; apply dragVal_nonneg; assumption).
    rewrite !frame_speed.
    rewrite (braking_true ctl r Hb Hy).
    replace (braking ctl' r) with false
      by (unfold braking; rewrite Hb'; reflexivity).
    rewrite (dragVal_gear_flaps cfg ctl ctl' _ Hg Hf).
    pose proof (vec_length_pos _ Hne) as Hpos.
    set (len := Vec.length (velocity r)) in *.
    unfold dragVal, DRAG_COEFFICIENT.
    assert (Hsq : len * 0.95 * (len * 0.95) * 0.0005 * dragMult cfg
                  <= len * len * 0.0005 * dragMult cfg).
    { apply Rmult_le_compat_r; [exact Hd |]. nra. }
    lra.
Qed.

Lemma brake_never_adds_drag_witness :
  (brake parked = true /\ vy (position rolling) < 1.0
   /\ brake coasting = false
   /\ gear parked = gear coasting /\ flaps parked = flaps coasting
   /\ 0 <= dragMult trainer /\ 0 <= flaps parked)
  /\ Vec.length (frameDragVector trainer parked rolling)
     <= Vec.length (frameDragVector trainer coasting rolling).
Proof.
  assert (Hy : vy (position rolling) < 1.0) by (simpl; lra).
  assert (Hd : 0 <= dragMult trainer) by (simpl; lra).
  assert (Hf : 0 <= flaps parked) by (simpl; lra).
  split.
  - split; [reflexivity |]. split; [exact Hy |]. split; [reflexivity |].
    split; [reflexivity |]. split; [reflexivity |]. split; assumption.
  - exact (brake_never_adds_drag trainer parked coasting rolling
             eq_refl Hy eq_refl eq_refl eq_refl Hd Hf).
Defined.

(** ** On the ground and at a standstill *)

(** X8.  A frame that starts on the ground ([position.y <= 0.6], also from
    below it) with [delta] not negative ends with no downward velocity and at
    or above [y = 0.6]. *)
Theorem ground_frame_ends_above :
  forall (cfg : AircraftConfig) (ctl : ControlState) (delta : R) (r : Refs),
    vy (position r) <= 0.6 -> 0 <= delta ->
    0 <= vy (velocity (physics cfg ctl delta r))
    /\ 0.6 <= vy (position (physics cfg ctl delta r)).
Proof.
  intros cfg ctl delta r Hy Hd.
  assert (Hg : isOnGround r = true) by (apply Rleb_true; exact Hy).
  assert (Hv : 0 <= vy (velocity (physics cfg ctl delta r))).
  { rewrite physics_velocity, Hg.
    destruct (clampVelocity_components (integrated cfg ctl delta r))
      as (_ & _ & Hneg & Hpos).
    destruct (Rlt_le_dec (vy (integrated cfg ctl delta r)) 0) as [Hlt | Hge].
    - rewrite Hneg by exact Hlt. lra.
    - rewrite Hpos by exact Hge. lra. }
  split; [exact Hv |].
  assert (Hp : vy (position (physics cfg ctl delta r))
               = 0.6 + vy (velocity (physics cfg ctl delta r)) * (delta * 60))
    by (rewrite physics_position, Hg; reflexivity).
  rewrite Hp.
  assert (0 <= vy (velocity (physics cfg ctl delta r)) * (delta * 60)); [| lra].
  apply Rmult_le_pos; lra.
Qed.

Lemma ground_frame_ends_above_witness :
  (vy (position sinking) <= 0.6 /\ 0 <= 1 / 30)
  /\ 0 <= vy (velocity (physics raptor pull (1 / 30) sinking))
  /\ 0.6 <= vy (position (physics raptor pull (1 / 30) sinking)).
Proof.
  assert (Hy : vy (position sinking) <= 0.6) by (simpl; lra).
  assert (Hd : 0 <= 1 / 30) by lra.
  split; [split; assumption |].
  exact (ground_frame_ends_above raptor pull (1 / 30) sinking Hy Hd).
Defined.

Lemma controlAuthority_zero (cfg : AircraftConfig) :
  controlAuthority cfg 0 = 0.
Proof.
  unfold controlAuthority, MIN_TAKEOFF_SPEED.
  replace (0 / 0.8) with 0 by lra.
  rewrite Rmin_left by lra. ring.
Qed.

(** X9.  At zero velocity the control authority is zero: stick inputs never
    change the orientation.  On the ground the aircraft still turns about its
    up axis, by the angle [totalYawInput * 0.02 * delta * 60]; in the air
    nothing turns it. *)
Theorem standstill_orientation :
  forall (cfg : AircraftConfig) (ctl : ControlState) (delta : R) (r : Refs),
    velocity r = Vec.zero ->
    quaternion (physics cfg ctl delta r)
    = if isOnGround r then
        Quat.multiply (quaternion r)
          (Quat.setFromAxisAngle (upOf r)
             (totalYawInput cfg ctl * 0.02 * delta * 60))
      else quaternion r.
Proof.
  intros cfg ctl delta r Hv.
  rewrite physics_quaternion, (rest_frameSpeed cfg ctl r Hv).
  replace (pitchAmt cfg ctl 0 delta) with 0
    by (unfold pitchAmt; rewrite controlAuthority_zero; ring).
  replace (rollAmt cfg ctl 0 delta) with 0
    by (unfold rollAmt; rewrite controlAuthority_zero; ring).
  rewrite !setFromAxisAngle_zero. unfold rotate.
  rewrite !multiply_identity.
  destruct (isOnGround r).
  - reflexivity.
  - replace (yawAmt cfg ctl false 0 delta) with 0
      by (unfold yawAmt; rewrite controlAuthority_zero; ring).
    now rewrite setFromAxisAngle_zero, multiply_identity.
Qed.

Lemma standstill_orientation_witness :
  velocity hovering = Vec.zero
  /\ quaternion (physics raptor pull (1 / 60) hovering) = quaternion hovering.
Proof.
  split; [reflexivity |].
  pose proof (standstill_orientation raptor pull (1 / 60) hovering eq_refl)
    as H.
  replace (isOnGround hovering) with false in H; [exact H |].
  symmetry. unfold isOnGround. apply Rleb_false. simpl. lra.
Defined.

Lemma cut_thrust (cfg : AircraftConfig) (ctl : ControlState) (r : Refs) :
  thrustCut ctl -> vy (position r) < 1.0 -> frameThrustVal cfg ctl r = 0.
Proof.
  intros [Hb | Hz] Hy.
  - apply braked_thrust. now apply braking_true.
  - unfold frameThrustVal, afterBrake, brakeBranch.
    destruct (braking ctl (readSpeed r)); simpl; [reflexivity |].
    unfold fullThrustVal, avgThrottle, totalThrustPercent.
    rewrite throttleLoop_all_zero by exact Hz. simpl.
    unfold Rdiv. ring.
Qed.

Lemma standstill_frame (cfg : AircraftConfig) (ctl : ControlState)
    (delta : R) (r : Refs) :
  thrustCut ctl -> 0 < delta ->
  velocity r = Vec.zero -> vy (position r) = 0.6 ->
  velocity (physics cfg ctl delta r) = Vec.zero
  /\ position (physics cfg ctl delta r) = position r.
Proof.
  intros Hcut Hd Hv Hy.
  assert (Hg : isOnGround r = true).
  { unfold isOnGround. apply Rleb_true. rewrite Hy. lra. }
  assert (Hvel : velocity (physics cfg ctl delta r) = Vec.zero).
  { rewrite physics_velocity, Hg.
    assert (Hi : integrated cfg ctl delta r
                 = mkVector3 0 (- GRAVITY * delta * 60) 0).
    { unfold integrated, frameThrustVector, frameLiftVector, frameDragVector.
      rewrite (cut_thrust cfg ctl r Hcut) by (rewrite Hy; lra).
      rewrite (rest_frameSpeed cfg ctl r Hv).
      unfold liftVector. rewrite effectiveLift_zero, Hv, dragVector_zero.
      apply vec_ext; simpl; ring. }
    rewrite Hi. unfold clampVelocity. simpl.
    destruct (Rlt_dec (- GRAVITY * delta * 60) 0) as [_ | Hge].
    - apply vec_ext; simpl; ring.
    - exfalso. apply Hge. unfold GRAVITY. lra. }
  split; [exact Hvel |].
  rewrite physics_position, Hvel, Hg.
  apply vec_ext; simpl; try ring. rewrite Hy. ring.
Qed.

(** X10.  An aircraft standing on the runway ([position.y = 0.6], zero
    velocity, any heading) stays where it is for any number of frames of
    positive [delta] as long as the thrust is cut in each of them: the brake
    set, whatever the throttles, or all throttles at zero.  Stick and rudder
    may be anything. *)
Theorem standstill_holds :
  forall (cfg : AircraftConfig) (ticks : list (ControlState * R)) (r : Refs),
    velocity r = Vec.zero -> vy (position r) = 0.6 ->
    Forall (fun tick => thrustCut (fst tick) /\ 0 < snd tick) ticks ->
    velocity (frames cfg ticks r) = Vec.zero
    /\ position (frames cfg ticks r) = position r.
Proof.
  intros cfg ticks r Hv Hy Hticks. revert r Hv Hy.
  induction Hticks as [| [ctl delta] rest [Hcut Hd] _ IH]; intros r Hv Hy;
    simpl.
  - split; [exact Hv | reflexivity].
  - simpl in Hcut, Hd.
    destruct (standstill_frame cfg ctl delta r Hcut Hd Hv Hy) as (Hv' & Hp').
    destruct (IH (physics cfg ctl delta r) Hv') as (Hv'' & Hp'').
    + now rewrite Hp'.
    + split; [exact Hv'' | now rewrite Hp'', Hp'].
Qed.

Lemma standstill_holds_witness :
  (velocity initialRefs = Vec.zero /\ vy (position initialRefs) = 0.6
   /\ Forall (fun tick => thrustCut (fst tick) /\ 0 < snd tick)
        [(bank, 1 / 60); (neutral, 1 / 30)])
  /\ velocity (frames titan [(bank, 1 / 60); (neutral, 1 / 30)] initialRefs)
     = Vec.zero
  /\ position (frames titan [(bank, 1 / 60); (neutral, 1 / 30)] initialRefs)
     = position initialRefs.
Proof.
  assert (Ht : Forall (fun tick => thrustCut (fst tick) /\ 0 < snd tick)
                 [(bank, 1 / 60); (neutral, 1 / 30)]).
  { constructor; [split; [left; reflexivity | simpl; lra] |].
    constructor; [split; [right; repeat constructor | simpl; lra] |].
    constructor. }
  split; [split; [reflexivity | split; [reflexivity | exact Ht]] |].
  exact (standstill_holds titan _ initialRefs eq_refl eq_refl Ht).
Defined.

(** ** The body axes and the rotation angles *)




Lemma controlAuthority_bounds (cfg : AircraftConfig) (sp : R) :
  0 <= sp -> 0 <= turnSpeedMult cfg ->
  0 <= controlAuthority cfg sp <= 0.03 * turnSpeedMult cfg.
Proof.
  intros Hsp Hm. unfold controlAuthority, MIN_TAKEOFF_SPEED, ROTATION_SPEED.
  assert (Hmin : 0 <= Rmin (sp / 0.8) 1.5 <= 1.5).
  { split; [apply Rmin_glb; lra | apply Rmin_r]. }
  set (a := Rmin (sp / 0.8) 1.5) in *. set (m := turnSpeedMult cfg) in *.
  split.
  - apply Rmult_le_pos; [| exact Hm]. lra.
  - replace (0.03 * m) with (1.5 * 0.02 * m) by lra.
    apply Rmult_le_compat_r; [exact Hm |]. lra.
Qed.

(** X12.  The control authority grows with speed up to
    [1.5 * MIN_TAKEOFF_SPEED = 1.2] and is constant, [0.03 * turnSpeedMult],
    from there on.  So with the stick inputs in [-1,1], [delta] and
    [turnSpeedMult] not negative, a frame pitches by at most
    [1.8 * turnSpeedMult * delta] and rolls by at most
    [2.7 * turnSpeedMult * delta], at any speed. *)
Theorem rotation_angle_bounds :
  forall (cfg : AircraftConfig) (ctl : ControlState) (sp delta : R),
    0 <= sp -> 0 <= delta -> 0 <= turnSpeedMult cfg ->
    -1 <= pitch ctl <= 1 -> -1 <= roll ctl <= 1 ->
    (1.2 <= sp -> controlAuthority cfg sp = 0.03 * turnSpeedMult cfg)
    /\ Rabs (pitchAmt cfg ctl sp delta) <= 1.8 * turnSpeedMult cfg * delta
    /\ Rabs (rollAmt cfg ctl sp delta) <= 2.7 * turnSpeedMult cfg * delta.
Proof.
  intros cfg ctl sp delta Hsp Hd Hm Hp Hr.
  pose proof (controlAuthority_bounds cfg sp Hsp Hm) as Ha.
  split.
  { intros Hfast. unfold controlAuthority, MIN_TAKEOFF_SPEED, ROTATION_SPEED.
    rewrite Rmin_right by lra. lra. }
  set (a := controlAuthority cfg sp) in *. set (m := turnSpeedMult cfg) in *.
  assert (Had : 0 <= a * delta <= 0.03 * m * delta).
  { split; [apply Rmult_le_pos; lra |].
    apply Rmult_le_compat_r; lra. }
  assert (Hpa : Rabs (pitch ctl) <= 1) by (apply Rabs_le; lra).
  assert (Hra : Rabs (roll ctl) <= 1) by (apply Rabs_le; lra).
  split.
  - unfold pitchAmt. fold a.
    replace (pitch ctl * a * delta * 60) with (pitch ctl * (a * delta * 60))
      by ring.
    rewrite Rabs_mult, (Rabs_pos_eq (a * delta * 60)) by lra.
    pose proof (Rabs_pos (pitch ctl)).
    apply Rle_trans with (1 * (a * delta * 60)); [| lra].
    apply Rmult_le_compat_r; lra.
  - unfold rollAmt. fold a.
    replace (- roll ctl * a * 1.5 * delta * 60)
      with (- roll ctl * (a * delta * 90)) by lra.
    rewrite Rabs_mult, Rabs_Ropp, (Rabs_pos_eq (a * delta * 90)) by lra.
    pose proof (Rabs_pos (roll ctl)).
    apply Rle_trans with (1 * (a * delta * 90)); [| lra].
    apply Rmult_le_compat_r; lra.
Qed.

Lemma rotation_angle_bounds_witness :
  (0 <= 2 /\ 0 <= 1 / 60 /\ 0 <= turnSpeedMult raptor
   /\ -1 <= pitch pull <= 1 /\ -1 <= roll pull <= 1 /\ 1.2 <= 2)
  /\ controlAuthority raptor 2 = 0.03 * turnSpeedMult raptor.
Proof.
  assert (Hsp : 0 <= 2) by lra.
  assert (Hd : 0 <= 1 / 60) by lra.
  assert (Hm : 0 <= turnSpeedMult raptor) by (simpl; lra).
  assert (Hp : -1 <= pitch pull <= 1) by (simpl; lra).
  assert (Hr : -1 <= roll pull <= 1) by (simpl; lra).
  assert (Hfast : 1.2 <= 2) by lra.
  split; [repeat split; lra || assumption |].
  exact (proj1 (rotation_angle_bounds raptor pull 2 (1 / 60) Hsp Hd Hm Hp Hr)
           Hfast).
Defined.

(** ** Gear, propellers and camera *)

(** X13.  For frame times up to a third of a second the gear animation keeps
    the gear position in [0,1] and never moves it away from its target (1 for
    gear down, 0 for gear up); once the rendered position is within 0.01 of
    the target the position is left as it is. *)
Theorem gear_animation_bounded :
  forall (gear : bool) (delta gearPos prev : R),
    0 <= delta <= 1 / 3 -> 0 <= prev <= 1 ->
    let target := if gear then 1 else 0 in
    0 <= gearStep gear delta gearPos prev <= 1
    /\ Rabs (gearStep gear delta gearPos prev - target) <= Rabs (prev - target)
    /\ (Rabs (gearPos - target) <= 0.01 ->
        gearStep gear delta gearPos prev = prev).
Proof.
  intros gear delta gearPos prev Hd Hp target.
  assert (Ht : 0 <= target <= 1) by (unfold target; destruct gear; lra).
  unfold gearStep. fold target.
  destruct (Rlt_dec 0.01 (Rabs (gearPos - target))) as [Hfar | Hnear].
  - unfold mathLerp.
    set (t := delta * 3). assert (Htr : 0 <= t <= 1) by (unfold t; lra).
    split; [split; nra |].
    split; [| intros Hle; lra].
    replace ((1 - t) * prev + t * target - target)
      with ((1 - t) * (prev - target)) by ring.
    rewrite Rabs_mult, (Rabs_pos_eq (1 - t)) by lra.
    pose proof (Rabs_pos (prev - target)). nra.
  - split; [exact Hp |]. split; [lra | reflexivity].
Qed.

Lemma gear_animation_bounded_witness :
  (0 <= 1 / 60 <= 1 / 3 /\ 0 <= 1 <= 1)
  /\ 0 <= gearStep false (1 / 60) 1 1 <= 1.
Proof.
  assert (Hd : 0 <= 1 / 60 <= 1 / 3) by lra.
  assert (Hp : 0 <= 1 <= 1) by lra.
  split; [split; assumption |].
  exact (proj1 (gear_animation_bounded false (1 / 60) 1 1 Hd Hp)).
Defined.

(** X14.  A propeller turns in every frame: with throttles in [0,100] the
    angle added to it is between 0.1 and 1.6, and for a propeller whose index
    has no throttle entry it is 0.1. *)
Theorem propeller_spin_bounds :
  forall (ctl : ControlState) (i : nat),
    throttlesInRange (throttles ctl) ->
    0.1 <= propellerSpin ctl i <= 1.6
    /\ ((length (throttles ctl) <= i)%nat -> propellerSpin ctl i = 0.1).
Proof.
  intros ctl i Hrange. unfold propellerSpin, throttleOr0.
  destruct (nth_error (throttles ctl) i) as [t |] eqn:Hnth.
  - assert (Ht : 0 <= t <= 100).
    { unfold throttlesInRange in Hrange. rewrite Forall_forall in Hrange.
      apply Hrange. eapply nth_error_In. exact Hnth. }
    split.
    + destruct (Req_dec_T t 0); lra.
    + intros Hlen. apply nth_error_None in Hlen. congruence.
  - split; [lra | intros _; lra].
Qed.

Lemma propeller_spin_bounds_witness :
  throttlesInRange (throttles pull)
  /\ 0.1 <= propellerSpin pull 0 <= 1.6
  /\ propellerSpin pull 3 = 0.1.
Proof.
  assert (Hr : throttlesInRange (throttles pull))
    by (repeat constructor; simpl; lra).
  split; [exact Hr |].
  split.
  - exact (proj1 (propeller_spin_bounds pull 0 Hr)).
  - apply (proj2 (propeller_spin_bounds pull 3 Hr)). simpl. lia.
Defined.



Lemma three_squares_nonneg (a b c : R) : 0 <= a * a + b * b + c * c.
Proof. nra. Qed.

(** X16.  Each frame brings the camera a tenth of the way to the point it
    heads for: its distance to that point is multiplied by 0.9. *)
Theorem camera_step_contracts :
  forall (cameraMode : nat) (type : AircraftType) (r : Refs)
         (camera : Vector3),
    distanceTo (cameraStep cameraMode type r camera)
      (targetCamPos cameraMode type r)
    = 0.9 * distanceTo camera (targetCamPos cameraMode type r).
Proof.
  intros cameraMode type r camera.
  unfold cameraStep.
  generalize (targetCamPos cameraMode type r). intros t.
  unfold distanceTo, Vec.lerp. simpl.
  set (dx := vx camera - vx t). set (dy := vy camera - vy t).
  set (dz := vz camera - vz t).
  pose proof (three_squares_nonneg dx dy dz) as Hd.
  apply sqrt_lem_1.
  - apply three_squares_nonneg.
  - apply Rmult_le_pos; [lra | apply sqrt_pos].
  - replace (0.9 * sqrt (dx * dx + dy * dy + dz * dz)
             * (0.9 * sqrt (dx * dx + dy * dy + dz * dz)))
      with (0.81 * (sqrt (dx * dx + dy * dy + dz * dz)
                    * sqrt (dx * dx + dy * dy + dz * dz))) by lra.
    rewrite sqrt_sqrt by exact Hd. unfold dx, dy, dz. lra.
Qed.

(** * Properties of the App component *)

(** ** Throttle handlers *)

Lemma clampThrottle_range (x : R) : 0 <= clampThrottle x <= 100.
Proof.
  unfold clampThrottle. split; [apply Rmax_l |].
  apply Rmax_lub; [lra | apply Rmin_l].
Qed.

Lemma clampThrottle_id (x : R) : 0 <= x <= 100 -> clampThrottle x = x.
Proof.
  intros Hx. unfold clampThrottle.
  rewrite Rmin_right by lra. apply Rmax_right. lra.
Qed.

Lemma setAllThrottles_throttles (delta : R) (c : ControlState) :
  throttlesInRange (throttles (setAllThrottles delta c))
  /\ length (throttles (setAllThrottles delta c)) = length (throttles c).
Proof.
  unfold setAllThrottles. simpl. split.
  - unfold throttlesInRange. apply Forall_map.
    apply Forall_forall. intros t _. apply clampThrottle_range.
  - apply length_map.
Qed.

(** X17.  After [setAllThrottles] every throttle is in [0,100], whatever the
    step and whatever the throttles were; their number is unchanged, and a
    throttle that the step keeps inside [0,100] moves by exactly the step. *)
Theorem setAllThrottles_range :
  forall (delta : R) (c : ControlState),
    throttlesInRange (throttles (setAllThrottles delta c))
    /\ length (throttles (setAllThrottles delta c)) = length (throttles c)
    /\ (forall (i : nat) (t : R),
           nth_error (throttles c) i = Some t -> 0 <= t + delta <= 100 ->
           nth_error (throttles (setAllThrottles delta c)) i
           = Some (t + delta)).
Proof.
  intros delta c.
  destruct (setAllThrottles_throttles delta c) as (Hrange & Hlen).
  split; [exact Hrange |]. split; [exact Hlen |].
  intros i t Hnth Hin. unfold setAllThrottles. simpl.
  rewrite nth_error_map, Hnth. simpl. now rewrite clampThrottle_id.
Qed.

Lemma assignAt_length (l : list R) :
  forall (index : nat) (value : R), length (assignAt l index value) = length l.
Proof.
  induction l as [| x rest IH]; intros [| k] value; simpl;
    try reflexivity.
  now rewrite IH.
Qed.

Lemma assignAt_same (l : list R) :
  forall (index : nat) (value : R),
    (index < length l)%nat ->
    nth_error (assignAt l index value) index = Some value.
Proof.
  induction l as [| x rest IH]; intros [| k] value Hlt; simpl in *;
    try lia; try reflexivity.
  apply IH. lia.
Qed.

Lemma assignAt_other (l : list R) :
  forall (index j : nat) (value : R),
    j <> index ->
    nth_error (assignAt l index value) j = nth_error l j.
Proof.
  induction l as [| x rest IH]; intros [| k] [| j] value Hne; simpl;
    try reflexivity; try congruence.
  apply IH. congruence.
Qed.

Lemma assignAt_range (l : list R) :
  forall (index : nat) (value : R),
    throttlesInRange l -> 0 <= value <= 100 ->
    throttlesInRange (assignAt l index value).
Proof.
  unfold throttlesInRange.
  induction l as [| x rest IH]; intros [| k] value Hl Hv; simpl;
    try constructor; inversion Hl; subst; auto.
Qed.

(** X18.  [handleThrottleChange] with an index below the number of
    throttles stores the value clamped to [0,100] at that index and leaves
    every other throttle alone; with an index at or past the end it changes
    nothing.  The number of throttles stays, and so does the range. *)
Theorem handleThrottleChange_spec :
  forall (index : nat) (value : R) (c : ControlState),
    let c' := handleThrottleChange index value c in
    length (throttles c') = length (throttles c)
    /\ ((index < length (throttles c))%nat ->
        nth_error (throttles c') index = Some (clampThrottle value))
    /\ (forall j : nat,
           j <> index -> nth_error (throttles c') j = nth_error (throttles c) j)
    /\ ((length (throttles c) <= index)%nat -> c' = c)
    /\ (throttlesInRange (throttles c) -> throttlesInRange (throttles c')).
Proof.
  intros index value c c'. subst c'. unfold handleThrottleChange.
  destruct (index <? length (throttles c))%nat eqn:Hlt; simpl.
  - apply Nat.ltb_lt in Hlt.
    split; [apply assignAt_length |].
    split; [intros _; now apply assignAt_same |].
    split; [intros j Hne; now apply assignAt_other |].
    split; [intros Hge; lia |].
    intros Hr. apply assignAt_range; [exact Hr | apply clampThrottle_range].
  - apply Nat.ltb_ge in Hlt.
    split; [reflexivity |].
    split; [intros Hlt'; lia |].
    split; [reflexivity |].
    split; [intros _; destruct c; reflexivity |].
    intros Hr; exact Hr.
Qed.

Lemma handleThrottleChange_spec_witness :
  ((1 < length (throttles staggered))%nat
   /\ (length (throttles staggered) <= 7)%nat)
  /\ nth_error (throttles (handleThrottleChange 1 250 staggered)) 1
     = Some (clampThrottle 250)
  /\ handleThrottleChange 7 50 staggered = staggered.
Proof.
  assert (Hlt : (1 < length (throttles staggered))%nat) by (simpl; lia).
  assert (Hge : (length (throttles staggered) <= 7)%nat) by (simpl; lia).
  split; [split; assumption |].
  split.
  - exact (proj1 (proj2 (handleThrottleChange_spec 1 250 staggered)) Hlt).
  - exact (proj1 (proj2 (proj2 (proj2
             (handleThrottleChange_spec 7 50 staggered)))) Hge).
Defined.

Lemma setAllThrottles_range_witness :
  (nth_error (throttles staggered) 2 = Some 30 /\ 0 <= 30 + 5 <= 100)
  /\ nth_error (throttles (setAllThrottles 5 staggered)) 2 = Some (30 + 5).
Proof.
  assert (Hn : nth_error (throttles staggered) 2 = Some 30) by reflexivity.
  assert (Hr : 0 <= 30 + 5 <= 100) by lra.
  split; [split; assumption |].
  exact (proj2 (proj2 (setAllThrottles_range 5 staggered)) 2%nat 30 Hn Hr).
Defined.

(** ** Flaps, and what every reachable state satisfies *)

Lemma truncZ_small (x : R) : 0 <= x < 1 -> truncZ x = 0%Z.
Proof.
  intros Hx. unfold truncZ.
  destruct (Rle_dec 0 x) as [_ | Hneg]; [| lra].
  symmetry. apply Int_part_spec. simpl. lra.
Qed.

Lemma truncZ_one : truncZ 1 = 1%Z.
Proof.
  unfold truncZ.
  destruct (Rle_dec 0 1) as [_ | Hneg]; [| lra].
  symmetry. apply Int_part_spec. simpl. lra.
Qed.

Lemma jsRem_flaps :
  jsRem (0 + 1) 3 = 1 /\ jsRem (1 + 1) 3 = 2 /\ jsRem (2 + 1) 3 = 0.
Proof.
  unfold jsRem. repeat split.
  - rewrite truncZ_small by lra. simpl. lra.
  - rewrite truncZ_small by lra. simpl. lra.
  - replace ((2 + 1) / 3) with 1 by lra. rewrite truncZ_one. simpl. lra.
Qed.

(** X19.  From a flaps setting of 0, 1 or 2 the flaps key and the flaps
    button step 0 to 1, 1 to 2 and 2 back to 0, so three presses restore the
    controls. *)
Theorem cycleFlaps_steps :
  forall c : ControlState,
    flaps c = 0 \/ flaps c = 1 \/ flaps c = 2 ->
    (flaps c = 0 -> flaps (cycleFlaps c) = 1)
    /\ (flaps c = 1 -> flaps (cycleFlaps c) = 2)
    /\ (flaps c = 2 -> flaps (cycleFlaps c) = 0)
    /\ cycleFlaps (cycleFlaps (cycleFlaps c)) = c.
Proof.
  intros c Hf. destruct jsRem_flaps as (H0 & H1 & H2).
  destruct c as [p r y thr b f g]. simpl in *.
  split; [intros ->; exact H0 |].
  split; [intros ->; exact H1 |].
  split; [intros ->; exact H2 |].
  unfold cycleFlaps. simpl.
  destruct Hf as [-> | [-> | ->]].
  - now rewrite H0, H1, H2.
  - now rewrite H1, H2, H0.
  - now rewrite H2, H0, H1.
Qed.

Lemma cycleFlaps_steps_witness :
  (flaps parked = 0 \/ flaps parked = 1 \/ flaps parked = 2)
  /\ flaps (cycleFlaps parked) = 2
  /\ cycleFlaps (cycleFlaps (cycleFlaps parked)) = parked.
Proof.
  assert (Hf : flaps parked = 0 \/ flaps parked = 1 \/ flaps parked = 2)
    by (right; left; reflexivity).
  split; [exact Hf |].
  split.
  - exact (proj1 (proj2 (cycleFlaps_steps parked Hf)) eq_refl).
  - exact (proj2 (proj2 (proj2 (cycleFlaps_steps parked Hf)))).
Defined.

Lemma sliceLast50_length {A : Type} (l : list A) :
  length (sliceLast50 l) = Nat.min (length l) 50.
Proof. unfold sliceLast50. rewrite length_skipn. lia. Qed.

(** What holds of [App] in every state it can reach. *)
Lemma defaultControls_inRange : controlsInRange defaultControls.
Proof.
  unfold controlsInRange, defaultControls. simpl.
  repeat split; auto.
  repeat constructor; lra.
Qed.

Lemma setAllThrottles_inRange (delta : R) (c : ControlState) :
  controlsInRange c -> controlsInRange (setAllThrottles delta c).
Proof.
  intros (Hp & Hr & Hy & Hlen & _ & Hf).
  destruct (setAllThrottles_throttles delta c) as (Hrange & Hl).
  unfold controlsInRange. rewrite Hl.
  repeat split; assumption.
Qed.

Lemma handleThrottleChange_inRange (index : nat) (value : R)
    (c : ControlState) :
  controlsInRange c -> controlsInRange (handleThrottleChange index value c).
Proof.
  intros (Hp & Hr & Hy & Hlen & Hrange & Hf).
  unfold controlsInRange, handleThrottleChange. simpl.
  destruct (index <? length (throttles c))%nat.
  - rewrite assignAt_length.
    repeat split; try assumption.
    apply assignAt_range; [exact Hrange | apply clampThrottle_range].
  - repeat split; assumption.
Qed.

Lemma cycleFlaps_inRange (c : ControlState) :
  controlsInRange c -> controlsInRange (cycleFlaps c).
Proof.
  intros (Hp & Hr & Hy & Hlen & Hrange & Hf).
  destruct jsRem_flaps as (H0 & H1 & H2).
  unfold controlsInRange, cycleFlaps. simpl.
  repeat split; try assumption.
  destruct Hf as [-> | [-> | ->]]; rewrite ?H0, ?H1, ?H2; auto.
Qed.

Lemma handleKeyDown_inRange (code : KeyCode) (s : AppState) :
  controlsInRange (app_controls s) ->
  controlsInRange (app_controls (handleKeyDown code s)).
Proof.
  intros Hc. unfold handleKeyDown.
  destruct (app_showHangar s); [exact Hc |].
  destruct code; simpl;
    try exact Hc;
    try exact defaultControls_inRange;
    try (apply setAllThrottles_inRange; exact Hc);
    try (apply cycleFlaps_inRange; exact Hc);
    try (destruct Hc as (Hp & Hr & Hy & Hlen & Hrange & Hf);
         unfold controlsInRange; simpl; repeat split; auto; fail).
Qed.

Lemma handleKeyUp_inRange (code : KeyCode) (s : AppState) :
  controlsInRange (app_controls s) ->
  controlsInRange (app_controls (handleKeyUp code s)).
Proof.
  intros Hc. unfold handleKeyUp.
  destruct (app_showHangar s); [exact Hc |].
  destruct Hc as (Hp & Hr & Hy & Hlen & Hrange & Hf).
  destruct code; simpl; unfold controlsInRange; simpl; repeat split; auto.
Qed.

Lemma appStep_inRange (s : AppState) (e : AppEvent) :
  controlsInRange (app_controls s) ->
  controlsInRange (app_controls (appStep s e)).
Proof.
  intros Hc. destruct e; simpl; try exact Hc.
  - now apply handleKeyDown_inRange.
  - now apply handleKeyUp_inRange.
  - now apply cycleFlaps_inRange.
  - exact defaultControls_inRange.
  - exact defaultControls_inRange.
  - now apply handleThrottleChange_inRange.
Qed.

Lemma appStep_cameraMode (s : AppState) (e : AppEvent) :
  (app_cameraMode s < 3)%nat -> (app_cameraMode (appStep s e) < 3)%nat.
Proof.
  intros Hc. destruct e; simpl; try exact Hc.
  - unfold handleKeyDown. destruct (app_showHangar s); [exact Hc |].
    destruct code; cbn [app_cameraMode handleRestart setControls];
      try exact Hc.
    apply Nat.mod_upper_bound. lia.
  - unfold handleKeyUp. destruct (app_showHangar s); [exact Hc |].
    destruct code; simpl; exact Hc.
Qed.

Lemma appStep_log (s : AppState) (e : AppEvent) :
  (length (app_atcMessages s) <= 51)%nat ->
  (length (app_atcMessages (appStep s e)) <= 51)%nat.
Proof.
  intros Hc. destruct e; simpl; try exact Hc; try lia.
  - unfold handleKeyDown. destruct (app_showHangar s); [exact Hc |].
    destruct code; simpl; try exact Hc. lia.
  - unfold handleKeyUp. destruct (app_showHangar s); [exact Hc |].
    destruct code; simpl; exact Hc.
  - unfold addATCMessage. rewrite length_app, sliceLast50_length. simpl. lia.
Qed.

(** X20.  In every state [App] reaches from its first render, by any
    sequence of key events, button and slider events, telemetry updates and
    posted messages, the controls handed to [Plane] are within their ranges
    (each axis at -1, 0 or 1, four throttles in [0,100], flaps 0, 1 or 2),
    the camera mode is 0, 1 or 2, and the message log holds at most 51
    messages. *)
Theorem app_invariant :
  forall events : list AppEvent,
    controlsInRange (app_controls (appRun initialApp events))
    /\ (app_cameraMode (appRun initialApp events) < 3)%nat
    /\ (length (app_atcMessages (appRun initialApp events)) <= 51)%nat.
Proof.
  intros events. unfold appRun.
  assert (Hinit : controlsInRange (app_controls initialApp)
                  /\ (app_cameraMode initialApp < 3)%nat
                  /\ (length (app_atcMessages initialApp) <= 51)%nat).
  { split; [exact defaultControls_inRange | simpl; lia]. }
  revert Hinit. generalize initialApp.
  induction events as [| e rest IH]; intros s (Hc & Hm & Hl); simpl.
  - split; [exact Hc | split; [exact Hm | exact Hl]].
  - apply IH. split; [now apply appStep_inRange |].
    split; [now apply appStep_cameraMode | now apply appStep_log].
Qed.

(** ** The message log *)

(** X21.  Posting a message keeps the last 50 messages of the log, in their
    order, and puts the new message after them: a log of at most 50 messages
    is only extended, a longer one loses its oldest messages, and the result
    never has more than 51. *)
Theorem addATCMessage_keeps_last_50 :
  forall (id : String.string) (now : R) (text : String.string)
         (sender : Sender) (prev : list ATCMessage),
    let m := mkATCMessage id sender text now in
    let log := addATCMessage id now text sender prev in
    length log = (Nat.min (length prev) 50 + 1)%nat
    /\ last log m = m
    /\ (exists dropped : list ATCMessage,
           length dropped = (length prev - 50)%nat
           /\ dropped ++ log = prev ++ [m])
    /\ ((length prev <= 50)%nat -> log = prev ++ [m]).
Proof.
  intros id now text sender prev m log. subst log. unfold addATCMessage.
  fold m.
  split; [rewrite length_app, sliceLast50_length; reflexivity |].
  split; [apply last_last |].
  split.
  - exists (firstn (length prev - 50) prev). split.
    + rewrite length_firstn. lia.
    + unfold sliceLast50. rewrite app_assoc, firstn_skipn. reflexivity.
  - intros Hle. unfold sliceLast50.
    replace (length prev - 50)%nat with 0%nat by lia. reflexivity.
Qed.

Lemma addATCMessage_keeps_last_50_witness :
  let m :=
    mkATCMessage AtcSamples.maydayId Pilot AtcSamples.maydayText
      AtcSamples.maydayTime in
  let post :=
    addATCMessage AtcSamples.maydayId AtcSamples.maydayTime
      AtcSamples.maydayText Pilot in
  (length AtcSamples.shortLog <= 50)%nat
  /\ post AtcSamples.shortLog
     = [AtcSamples.pilotCall; AtcSamples.towerReply; m]
  /\ length AtcSamples.longLog = 55%nat
  /\ length (post AtcSamples.longLog) = 51%nat
  /\ last (post AtcSamples.longLog) m = m
  /\ (exists dropped : list ATCMessage,
         length dropped = 5%nat
         /\ dropped ++ post AtcSamples.longLog = AtcSamples.longLog ++ [m]).
Proof.
  intros m post.
  assert (Hle : (length AtcSamples.shortLog <= 50)%nat) by (simpl; lia).
  pose proof (addATCMessage_keeps_last_50 AtcSamples.maydayId
                AtcSamples.maydayTime AtcSamples.maydayText Pilot
                AtcSamples.shortLog) as (_ & _ & _ & Hshort).
  pose proof (addATCMessage_keeps_last_50 AtcSamples.maydayId
                AtcSamples.maydayTime AtcSamples.maydayText Pilot
                AtcSamples.longLog) as (Hlen & Hlast & Hdrop & _).
  split; [exact Hle |].
  split; [exact (Hshort Hle) |].
  split; [reflexivity |].
  split; [exact Hlen |].
  split; [exact Hlast |].
  exact Hdrop.
Defined.

(** * Properties of the instrument panel *)





(** X23.  No stall warning on the runway: for an aircraft standing at
    [position.y = 0.6] with the thrust cut, the telemetry of the frame has
    speed 0 and altitude 0.6, and the panel's stall test, which asks for an
    altitude above 2, is false. *)
Theorem no_stall_warning_at_standstill :
  forall (setFromQuaternion : Quaternion -> Euler) (cfg : AircraftConfig)
         (ctl : ControlState) (delta : R) (r : Refs),
    velocity r = Vec.zero -> vy (position r) = 0.6 ->
    thrustCut ctl -> 0 < delta ->
    let fd := snd (useFrame setFromQuaternion cfg ctl delta r) in
    fd_velocity fd = 0 /\ fd_altitude fd = 0.6 /\ isStalling fd = false.
Proof.
  intros euler cfg ctl delta r Hv Hy Hcut Hd fd.
  destruct (standstill_frame cfg ctl delta r Hcut Hd Hv Hy) as (_ & Hp).
  assert (Hs : fd_velocity fd = 0).
  { change (speed (physics cfg ctl delta r) = 0).
    rewrite physics_speed. now apply rest_frameSpeed. }
  assert (Ha : fd_altitude fd = 0.6).
  { change (vy (position (physics cfg ctl delta r)) = 0.6).
    now rewrite Hp. }
  split; [exact Hs |]. split; [exact Ha |].
  unfold isStalling. rewrite Ha.
  rewrite (Rltb_false 2 0.6) by lra. apply andb_false_r.
Qed.

Lemma no_stall_warning_at_standstill_witness :
  (velocity initialRefs = Vec.zero /\ vy (position initialRefs) = 0.6
   /\ thrustCut defaultControls /\ 0 < 1 / 60)
  /\ isStalling (snd (useFrame noEuler trainer defaultControls (1 / 60)
                        initialRefs)) = false.
Proof.
  assert (Hcut : thrustCut defaultControls) by (left; reflexivity).
  assert (Hd : 0 < 1 / 60) by lra.
  split.
  - split; [reflexivity |]. split; [reflexivity |]. split; assumption.
  - exact (proj2 (proj2 (no_stall_warning_at_standstill noEuler trainer
             defaultControls (1 / 60) initialRefs eq_refl eq_refl Hcut Hd))).
Defined.

(** * Lift and lift-off *)

(** X24.  With [liftMult] and the flaps setting not negative and
    [maxSpeedMult] positive, the lift is proportional to the square of the
    speed, [speed^2 * liftMult * (1 + 0.3 * flaps) / (2 * maxSpeedMult)]:
    it is zero at rest, never negative, and each notch of flaps adds 30
    percent of the clean lift. *)
Theorem lift_quadratic :
  forall (cfg : AircraftConfig) (ctl : ControlState) (sp : R),
    0 <= liftMult cfg -> 0 < maxSpeedMult cfg -> 0 <= flaps ctl ->
    effectiveLift cfg ctl sp
    = sp * sp * liftMult cfg * (1 + flaps ctl * 0.3) / (2 * maxSpeedMult cfg).
Proof.
  intros cfg ctl sp Hl Hm Hf.
  unfold effectiveLift, liftFactor, LIFT_COEFFICIENT, MAX_SPEED.
  set (lm := liftMult cfg) in *. set (msm := maxSpeedMult cfg) in *.
  set (f := flaps ctl) in *.
  replace (sp / (4.0 * msm) * (1 + f * 0.3) * 0.002 * sp * 1000 * lm)
    with (sp * sp * lm * (1 + f * 0.3) / (2 * msm))
    by (unfold Rdiv; rewrite !Rinv_mult; lra).
  apply Rmax_right.
  apply Rmult_le_pos.
  - apply Rmult_le_pos; [apply Rmult_le_pos; [nra | exact Hl] | lra].
  - apply Rlt_le, Rinv_0_lt_compat. lra.
Qed.

Lemma lift_quadratic_witness :
  (0 <= liftMult titan /\ 0 < maxSpeedMult titan /\ 0 <= flaps bank)
  /\ effectiveLift titan bank 3
     = 3 * 3 * liftMult titan * (1 + flaps bank * 0.3)
       / (2 * maxSpeedMult titan).
Proof.
  assert (Hl : 0 <= liftMult titan) by (simpl; lra).
  assert (Hm : 0 < maxSpeedMult titan) by (simpl; lra).
  assert (Hf : 0 <= flaps bank) by (simpl; lra).
  split; [split; [exact Hl | split; [exact Hm | exact Hf]] |].
  exact (lift_quadratic titan bank 3 Hl Hm Hf).
Defined.

Lemma level_integrated_vy (cfg : AircraftConfig) (ctl : ControlState)
    (delta : R) (r : Refs) :
  quaternion r = Quat.identity -> vy (velocity r) = 0 ->
  vy (integrated cfg ctl delta r)
  = delta * (effectiveLift cfg ctl (frameSpeed cfg ctl r) - GRAVITY * 60).
Proof.
  intros Hq Hvy.
  destruct (identity_axes r Hq) as (Hfw & Hup & _).
  unfold integrated, integrateVelocity, frameThrustVector, frameLiftVector,
    frameDragVector, liftVector, dragVector, gravityVector, Vec.normalize,
    Vec.divideScalar.
  rewrite Hfw, Hup. simpl. rewrite Hvy. ring.
Qed.

(** X25.  Lift-off from a level ground roll: with the identity orientation,
    no vertical velocity, [position.y <= 0.6] and a positive [delta], the
    frame ends above 0.6 exactly when the lift exceeds [GRAVITY * 60 = 4.8];
    thrust, drag and the brake have no part in it. *)
Theorem liftoff_condition :
  forall (cfg : AircraftConfig) (ctl : ControlState) (delta : R) (r : Refs),
    quaternion r = Quat.identity -> vy (velocity r) = 0 ->
    vy (position r) <= 0.6 -> 0 < delta ->
    (0.6 < vy (position (physics cfg ctl delta r))
     <-> GRAVITY * 60 < effectiveLift cfg ctl (frameSpeed cfg ctl r)).
Proof.
  intros cfg ctl delta r Hq Hvy Hy Hd.
  assert (Hg : isOnGround r = true) by (apply Rleb_true; exact Hy).
  pose proof (level_integrated_vy cfg ctl delta r Hq Hvy) as Hi.
  set (E := effectiveLift cfg ctl (frameSpeed cfg ctl r)) in *.
  assert (Hp : vy (position (physics cfg ctl delta r))
               = 0.6 + vy (velocity (physics cfg ctl delta r)) * (delta * 60))
    by (rewrite physics_position, Hg; reflexivity).
  assert (Hv : velocity (physics cfg ctl delta r)
               = clampVelocity (integrated cfg ctl delta r))
    by (rewrite physics_velocity, Hg; reflexivity).
  rewrite Hp, Hv.
  destruct (clampVelocity_components (integrated cfg ctl delta r))
    as (_ & _ & Hneg & Hpos).
  set (vi := vy (integrated cfg ctl delta r)) in *.
  assert (Hsign : 0 < vi <-> GRAVITY * 60 < E).
  { rewrite Hi. split; intros H.
    - destruct (Rlt_le_dec (GRAVITY * 60) E) as [Hlt | Hle]; [exact Hlt |].
      exfalso.
      assert (0 <= delta * (GRAVITY * 60 - E)); [| lra].
      apply Rmult_le_pos; lra.
    - apply Rmult_lt_0_compat; lra. }
  destruct (Rlt_le_dec vi 0) as [Hlt | Hge].
  - rewrite Hneg by exact Hlt. split; intros H; [lra |].
    apply Hsign in H. lra.
  - rewrite Hpos by exact Hge. rewrite <- Hsign. split; intros H.
    + destruct (Rle_lt_or_eq_dec 0 vi Hge) as [Hpos' | Hzero];
        [exact Hpos' |].
      rewrite <- Hzero in H. lra.
    + assert (0 < vi * 0.995 * (delta * 60)); [| lra].
      apply Rmult_lt_0_compat; lra.
Qed.

Lemma liftoff_condition_witness :
  (quaternion rolling = Quat.identity /\ vy (velocity rolling) = 0
   /\ vy (position rolling) <= 0.6 /\ 0 < 1 / 60)
  /\ (0.6 < vy (position (physics trainer neutral (1 / 60) rolling))
      <-> GRAVITY * 60
          < effectiveLift trainer neutral (frameSpeed trainer neutral rolling)).
Proof.
  assert (Hy : vy (position rolling) <= 0.6) by (simpl; lra).
  assert (Hd : 0 < 1 / 60) by lra.
  split.
  - split; [reflexivity |]. split; [reflexivity |]. split; assumption.
  - exact (liftoff_condition trainer neutral (1 / 60) rolling
             eq_refl eq_refl Hy Hd).
Defined.

(** * The orientation in binary64 *)

(** Whatever the engine's [Math.sin] and [Math.cos] are away from zero, the
    run below never asks them: after 46 frames the orientation is still the
    identity, the speed has overflowed to infinity, and the frame after that
    makes every component of the orientation NaN. *)
Lemma titan_roll_orientation (sinImpl cosImpl : PrimFloat.float -> PrimFloat.float) :
  let run := Double.frames sinImpl cosImpl Double.titan Double.neutral
               Double.sixtieth in
  Double.unitWithinTolerance (Double.quaternion (run 46%nat Double.rolling))
  = true
  /\ PrimFloat.is_infinity (Double.speed (run 46%nat Double.rolling)) = true
  /\ PrimFloat.is_nan (Double.qw (Double.quaternion (run 47%nat Double.rolling)))
     = true.
Proof. repeat split; vm_compute; reflexivity. Qed.

(** C4, as stated, fails on the program's numbers: the Titan Hauler starts
    a ground roll at speed 4 with a unit orientation and neutral controls,
    and after 47 frames of 1/60 s the magnitude of its orientation is not
    within 1e-6 of 1 (it is NaN). *)
Lemma orientation_leaves_tolerance :
  Double.unitWithinTolerance (Double.quaternion Double.rolling) = true
  /\ Double.unitWithinTolerance
       (Double.quaternion
          (Double.frames Double.noImpl Double.noImpl Double.titan
             Double.neutral Double.sixtieth 47 Double.rolling))
     = false.
Proof. split; vm_compute; reflexivity. Qed.
